(** * Autonomous recovery system: detection, severity, planning, execution

    A shallow embedding of [docs/next-gen/autonomous-recovery-system.py]
    (class [AutonomousRecoverySystem]) and the properties of its incident
    detection and recovery functions. *)

From stdpp Require Import strings pretty gmap list.
From Stdlib Require Import QArith Lia Lqa.

Close Scope Q_scope.
Local Open Scope list_scope.

(** ** Strings

    Python [str] values are modelled as [string], the UTF-8 bytes of the
    text.  The code lower-cases a text to look for ASCII keywords in it,
    and [lower] is [str.lower] as far as such a test can tell: it maps the
    ASCII letters [A-Z], and the two other characters whose lower case
    holds an ASCII letter, U+212A KELVIN SIGN (to [k]) and U+0130 (to [i]
    followed by U+0307).  The bytes of every other character stay as they
    are; their lower case holds no ASCII byte either, so no keyword test
    tells the difference.  The only other use of a lower-cased text is the
    service name that two handlers build from the device id and pass on to
    the Kubernetes client.  [contains kw s] is the test [kw in s]. *)

Definition lower_ascii (c : Ascii.ascii) : Ascii.ascii :=
  let n := Ascii.nat_of_ascii c in
  if (65 <=? n)%nat && (n <=? 90)%nat then Ascii.ascii_of_nat (n + 32) else c.

Definition byte (n : nat) : Ascii.ascii := Ascii.ascii_of_nat n.

Fixpoint lower (s : string) : string :=
  match s with
  | EmptyString => EmptyString
  | String c s' =>
      if Ascii.eqb c (byte 196) then          (* C4 B0: U+0130 *)
        match s' with
        | String c1 rest =>
            if Ascii.eqb c1 (byte 176)
            then String (byte 105) (String (byte 204) (String (byte 135) (lower rest)))
            else String c (lower s')
        | EmptyString => String c EmptyString
        end
      else if Ascii.eqb c (byte 226) then     (* E2 84 AA: U+212A *)
        match s' with
        | String c1 (String c2 rest) =>
            if Ascii.eqb c1 (byte 132) && Ascii.eqb c2 (byte 170)
            then String (byte 107) (lower rest)
            else String c (lower s')
        | _ => String c (lower s')
        end
      else String (lower_ascii c) (lower s')
  end.

Fixpoint contains (kw s : string) : bool :=
  String.prefix kw s ||
  match s with
  | EmptyString => false
  | String _ s' => contains kw s'
  end.

(** ** Numbers

    A metric value is a Python number: an [int] of any size, a finite
    [float] (as a rational), an infinity, or [nan].  The comparisons used by
    the detector are against finite literals; Python compares an [int] with
    a [float] exactly, and every comparison with [nan] is false.  The
    literals are taken at their decimal value: [3.2] and [0.1] round
    upwards to binary64, so no [float] lies between the decimal value and
    the rounded one and both give the same comparisons. *)

Inductive number : Type :=
  | Int (z : Z)
  | Num (q : Q)
  | PosInf
  | NegInf
  | NaN.

Definition Qlt_bool (a b : Q) : bool := negb (Qle_bool b a).

(** [x < c] and [x > c] for a literal [c]. *)
Definition num_lt (x : number) (c : Q) : bool :=
  match x with
  | Int z => Qlt_bool (inject_Z z) c
  | Num q => Qlt_bool q c
  | NegInf => true
  | PosInf | NaN => false
  end.

Definition num_gt (x : number) (c : Q) : bool :=
  match x with
  | Int z => Qlt_bool c (inject_Z z)
  | Num q => Qlt_bool c q
  | PosInf => true
  | NegInf | NaN => false
  end.

(** An exception, as its [str(e)]. *)
Definition exn : Type := string.

(** [np.isnan]: defined on a [float] and on an [int] that fits a signed or
    an unsigned 64-bit integer; for any other [int] it raises a
    [TypeError]. *)
Definition isnan_type_error : exn :=
  "ufunc 'isnan' not supported for the input types, and the inputs could not be safely coerced to any supported types according to the casting rule ''safe''".

Definition fits_64_bits (z : Z) : bool :=
  (- 2 ^ 63 <=? z)%Z && (z <? 2 ^ 64)%Z.

Definition isnan (x : number) : exn + bool :=
  match x with
  | NaN => inr true
  | Int z => if fits_64_bits z then inr false else inl isnan_type_error
  | Num _ | PosInf | NegInf => inr false
  end.

(** ** Data model *)

(** [class IncidentSeverity(Enum)], with its [.value]. *)
Inductive IncidentSeverity : Type :=
  | LOW | MEDIUM | HIGH | CRITICAL | CATASTROPHIC.

Definition severity_value (s : IncidentSeverity) : Z :=
  match s with
  | LOW => 1 | MEDIUM => 2 | HIGH => 3 | CRITICAL => 4 | CATASTROPHIC => 5
  end.

(** [class RecoveryAction(Enum)], with its [.value]. *)
Inductive RecoveryAction : Type :=
  | RESTART_SERVICE | REBOOT_DEVICE | RECALIBRATE_SENSORS | UPDATE_FIRMWARE
  | SCALE_RESOURCES | NETWORK_RESET | FACTORY_RESET | REPLACE_HARDWARE
  | MANUAL_INTERVENTION.

Definition action_value (a : RecoveryAction) : string :=
  match a with
  | RESTART_SERVICE => "restart_service"
  | REBOOT_DEVICE => "reboot_device"
  | RECALIBRATE_SENSORS => "recalibrate_sensors"
  | UPDATE_FIRMWARE => "update_firmware"
  | SCALE_RESOURCES => "scale_resources"
  | NETWORK_RESET => "network_reset"
  | FACTORY_RESET => "factory_reset"
  | REPLACE_HARDWARE => "replace_hardware"
  | MANUAL_INTERVENTION => "manual_intervention"
  end.

Definition all_actions : list RecoveryAction :=
  [RESTART_SERVICE; REBOOT_DEVICE; RECALIBRATE_SENSORS; UPDATE_FIRMWARE;
   SCALE_RESOURCES; NETWORK_RESET; FACTORY_RESET; REPLACE_HARDWARE;
   MANUAL_INTERVENTION].

(** [RecoveryAction(action)] guarded by
    [action in [ra.value for ra in RecoveryAction]]. *)
Definition action_of_value (v : string) : option RecoveryAction :=
  List.find (fun a => String.eqb (action_value a) v) all_actions.

(** The telemetry snapshot [device_data : Dict[str, Any]], in its typed
    view: the string entry [device_id] and the numeric entries; a key that
    is absent from the dictionary is absent here. *)
Record DeviceData : Type := {
  dd_device_id : option string;
  dd_metrics : gmap string number
}.

(** [device_data.get(key, dflt)] and [device_data.get(key)] on a metric. *)
Definition get_metric (d : DeviceData) (key : string) (dflt : number) : number :=
  default dflt (dd_metrics d !! key).

Definition get_reading (d : DeviceData) (key : string) : option number :=
  dd_metrics d !! key.

(** One entry of a recovery plan: the dictionary
    [{"step", "action", "description", "estimated_time", "risk_level"}]. *)
Record PlanStep : Type := {
  step : Z;
  action : string;
  description : string;
  estimated_time : Z;
  risk_level : string
}.

(** ** Symptom detection: [_detect_symptoms] *)

Section Detector.

(** [str(x)] of a number inside an f-string ([f"{battery_voltage}"]). *)
Variable str_of_number : number -> string.

(** The f-string [f"Invalid {sensor} reading: {value}"]; the value is
    [None] or [nan] where the symptom is produced. *)
Definition str_of_reading (v : option number) : string :=
  match v with
  | None => "None"
  | Some x => str_of_number x
  end.

(** The last loop, over the [sensor_data] dictionary in its insertion
    order: [value is None or np.isnan(value)]. *)
Definition invalid_reading (v : option number) : exn + bool :=
  match v with
  | None => inr true
  | Some x => isnan x
  end.

Fixpoint check_sensors (sensor_data : list (string * option number))
    (symptoms : list string) : exn + list string :=
  match sensor_data with
  | [] => inr symptoms
  | (sensor, value) :: rest =>
      match invalid_reading value with
      | inl e => inl e
      | inr invalid =>
          check_sensors rest
            (if invalid
             then symptoms ++ ["Invalid " +:+ sensor +:+ " reading: " +:+ str_of_reading value]
             else symptoms)
      end
  end.

(** The function returns the list, or raises what [np.isnan] raises. *)
Definition _detect_symptoms (device_data : DeviceData) : exn + list string :=
  let symptoms := [] in
  let battery_voltage := get_metric device_data "battery_voltage" (Int 0) in
  let symptoms :=
    if num_lt battery_voltage 3.2
    then symptoms ++ ["Low battery voltage: " +:+ str_of_number battery_voltage +:+ "V"]
    else symptoms in
  let temperature := get_metric device_data "temperature" (Int 0) in
  let symptoms :=
    if num_gt temperature 50 || num_lt temperature (-10)
    then symptoms ++ ["Extreme temperature: " +:+ str_of_number temperature +:+ "°C"]
    else symptoms in
  let memory_usage := get_metric device_data "memory_usage" (Int 0) in
  let symptoms :=
    if num_gt memory_usage 90
    then symptoms ++ ["High memory usage: " +:+ str_of_number memory_usage +:+ "%"]
    else symptoms in
  let cpu_usage := get_metric device_data "cpu_usage" (Int 0) in
  let symptoms :=
    if num_gt cpu_usage 95
    then symptoms ++ ["High CPU usage: " +:+ str_of_number cpu_usage +:+ "%"]
    else symptoms in
  let error_count := get_metric device_data "error_count" (Int 0) in
  let symptoms :=
    if num_gt error_count 10
    then symptoms ++ ["High error count: " +:+ str_of_number error_count]
    else symptoms in
  let wifi_signal := get_metric device_data "wifi_signal_strength" (Int 0) in
  let symptoms :=
    if num_lt wifi_signal (-80)
    then symptoms ++ ["Weak WiFi signal: " +:+ str_of_number wifi_signal +:+ "dBm"]
    else symptoms in
  let uptime_hours := get_metric device_data "uptime_hours" (Int 0) in
  let symptoms :=
    if num_lt uptime_hours 0.1
    then symptoms ++ ["Frequent reboots detected: uptime " +:+ str_of_number uptime_hours +:+ "h"]
    else symptoms in
  let sensor_data :=
    [("temperature", get_reading device_data "temperature");
     ("humidity", get_reading device_data "humidity");
     ("pressure", get_reading device_data "pressure")] in
  check_sensors sensor_data symptoms.

End Detector.

(** ** Severity assessment: [_assess_severity] *)

Definition critical_keywords : list string :=
  ["battery"; "temperature"; "memory"; "reboot"].

(** [any(keyword in symptom.lower() for keyword in critical_keywords)] *)
Definition mentions_critical (symptom : string) : bool :=
  existsb (fun keyword => contains keyword (lower symptom)) critical_keywords.

(** The loop [for symptom in symptoms: severity_score += 2 or 1], on the
    integer score. *)
Definition score_symptoms (symptoms : list string) : Z :=
  fold_left
    (fun severity_score symptom =>
       if mentions_critical symptom then severity_score + 2 else severity_score + 1)%Z
    symptoms 0%Z.

(** [device_data.get('device_id', '')] and the test on its lower case. *)
Definition critical_device (device_data : DeviceData) : bool :=
  let device_id := default EmptyString (dd_device_id device_data) in
  contains "critical" (lower device_id) || contains "production" (lower device_id).

(** The [if ... elif ...] chain that turns the score into a level. *)
Definition severity_of_score (severity_score : Q) : IncidentSeverity :=
  if Qle_bool 10 severity_score then CATASTROPHIC
  else if Qle_bool 7 severity_score then CRITICAL
  else if Qle_bool 4 severity_score then HIGH
  else if Qle_bool 2 severity_score then MEDIUM
  else LOW.

Definition _assess_severity (symptoms : list string) (device_data : DeviceData)
    : IncidentSeverity :=
  let severity_score := score_symptoms symptoms in
  let severity_score :=
    if critical_device device_data
    then (inject_Z severity_score * 1.5)%Q
    else inject_Z severity_score in
  severity_of_score severity_score.

(** The algorithm as the specification words it: the sum of the
    per-symptom weights, times the device multiplier, clipped to the five
    levels. *)
Definition severity_weight (symptom : string) : Z :=
  if mentions_critical symptom then 2 else 1.

Definition device_criticality_multiplier (device_data : DeviceData) : Q :=
  if critical_device device_data then 1.5 else 1.

Definition severity_thresholds : list (Q * IncidentSeverity) :=
  [(10, CATASTROPHIC); (7, CRITICAL); (4, HIGH); (2, MEDIUM)]%Q.

Definition clip_severity (score : Q) : IncidentSeverity :=
  match List.find (fun '(threshold, _) => Qle_bool threshold score) severity_thresholds with
  | Some (_, level) => level
  | None => LOW
  end.

Definition spec_severity (symptoms : list string) (device_data : DeviceData)
    : IncidentSeverity :=
  let total := foldr Z.add 0%Z (severity_weight <$> symptoms) in
  clip_severity (inject_Z total * device_criticality_multiplier device_data)%Q.

(** The order [LOW < MEDIUM < HIGH < CRITICAL < CATASTROPHIC]. *)
Definition severity_le (a b : IncidentSeverity) : Prop :=
  (severity_value a <= severity_value b)%Z.

(** ** Recovery planning: [_generate_recovery_plan] *)

Definition mk_step (n : Z) (a d : string) (t : Z) (r : string) : PlanStep :=
  {| step := n; action := a; description := d; estimated_time := t; risk_level := r |}.

Definition diagnostic_step : PlanStep :=
  mk_step 1 "diagnostic_check" "Perform comprehensive diagnostic check" 2 "low".

Definition battery_steps : list PlanStep :=
  [mk_step 2 (action_value RESTART_SERVICE) "Restart power management service" 1 "low";
   mk_step 3 "battery_optimization" "Optimize power consumption settings" 5 "medium"].

Definition temperature_steps : list PlanStep :=
  [mk_step 2 "cooling_check" "Check cooling system and ventilation" 3 "low";
   mk_step 3 (action_value RECALIBRATE_SENSORS) "Recalibrate temperature sensors" 5 "medium"].

Definition memory_steps : list PlanStep :=
  [mk_step 2 (action_value RESTART_SERVICE) "Restart affected services" 2 "low";
   mk_step 3 "memory_cleanup" "Clear memory leaks and optimize usage" 3 "medium"].

Definition reboot_steps : list PlanStep :=
  [mk_step 2 (action_value UPDATE_FIRMWARE) "Update to stable firmware version" 10 "medium";
   mk_step 3 "stability_test" "Run stability test for 30 minutes" 30 "low"].

Definition network_steps : list PlanStep :=
  [mk_step 2 (action_value NETWORK_RESET) "Reset network configuration" 3 "medium";
   mk_step 3 "network_optimization" "Optimize WiFi settings and antenna" 5 "low"].

(** The [if ... elif ...] chain on [root_cause.lower()]. *)
Definition targeted_steps (root_cause : string) : list PlanStep :=
  let rc := lower root_cause in
  if contains "battery" rc then battery_steps
  else if contains "temperature" rc then temperature_steps
  else if contains "memory" rc || contains "cpu" rc then memory_steps
  else if contains "reboot" rc || contains "crash" rc then reboot_steps
  else if contains "wifi" rc || contains "network" rc then network_steps
  else [].

Definition manual_step (n : Z) : PlanStep :=
  mk_step n (action_value MANUAL_INTERVENTION)
    "Request immediate manual intervention" 30 "low".

Definition _generate_recovery_plan (root_cause : string) (severity : IncidentSeverity)
    : list PlanStep :=
  let recovery_plan := [] in
  let recovery_plan := recovery_plan ++ [diagnostic_step] in
  let recovery_plan := recovery_plan ++ targeted_steps root_cause in
  let recovery_plan :=
    if (severity_value CRITICAL <=? severity_value severity)%Z
    then recovery_plan ++ [manual_step (Z.of_nat (length recovery_plan) + 1)]
    else recovery_plan in
  recovery_plan.

(** The string [_analyze_root_cause] returns when the analysis raises. *)
Definition fallback_root_cause : string :=
  "Unable to determine root cause due to analysis error".

(** A step is a manual-intervention step, a diagnostic step. *)
Definition is_manual (s : PlanStep) : bool :=
  String.eqb (action s) (action_value MANUAL_INTERVENTION).

Definition is_diagnostic (s : PlanStep) : bool :=
  String.eqb (action s) "diagnostic_check".

(** ** Effects

    The methods that talk to the outside world are functions of a world
    state [S]: they return a value or raise an exception (its [str(e)]),
    and leave a new state.  [try_except] is [try: ... except Exception as e]. *)

Definition M (S A : Type) : Type := S -> (exn + A) * S.

#[global] Instance M_ret {S} : MRet (M S) :=
  fun A (a : A) s => (inr a, s).

#[global] Instance M_bind {S} : MBind (M S) :=
  fun A B (f : A -> M S B) (m : M S A) s =>
    match m s with
    | (inr a, s') => f a s'
    | (inl e, s') => (inl e, s')
    end.

Definition raise {S A} (e : exn) : M S A := fun s => (inl e, s).

(** The outcome of a function that touches no state. *)
Definition lift_result {S A} (r : exn + A) : M S A := fun s => (r, s).

Definition try_except {S A} (m : M S A) (handler : exn -> M S A) : M S A :=
  fun s =>
    match m s with
    | (inl e, s') => handler e s'
    | (inr a, s') => (inr a, s')
    end.

(** A call returns (does not raise) in every state. *)
Definition returns {S A} (m : M S A) : Prop :=
  forall s, exists a s', m s = (inr a, s').

(** The result dictionary of an action handler:
    [{"success": ..., "status": ..., "error": ...}], the last key optional. *)
Record ActionResult : Type := {
  res_success : bool;
  res_status : string;
  res_error : option string
}.

(** [@dataclass class IncidentReport] *)
Record IncidentReport : Type := {
  incident_id : string;
  device_id : string;
  incident_type : string;
  severity : IncidentSeverity;
  detection_time : Q;
  symptoms : list string;
  root_cause : option string;
  recovery_plan : list PlanStep;
  estimated_recovery_time : Z;
  business_impact : string;
  stakeholders : list string
}.

(** [@dataclass class RecoveryResult] *)
Record RecoveryResult : Type := {
  result_incident_id : string;
  success : bool;
  actions_taken : list string;
  recovery_time : Z;
  ai_confidence : Q;
  manual_intervention : bool;
  lessons_learned : list string;
  follow_up_actions : list string
}.

(** What the class reaches outside itself, over a world state [W]: the
    clients it is configured with and the methods it calls but does not
    define.  Every call may raise. *)
Record External (W : Type) : Type := {
  (* formatting and time *)
  str_of_number : number -> string;
  now : W -> Q;                                  (* datetime.now(), in seconds *)
  strftime : Q -> string;                        (* strftime('%Y%m%d%H%M%S') *)
  isoformat : Q -> string;                       (* isoformat() *)
  sleep : Z -> M W unit;                         (* asyncio.sleep *)
  (* Kubernetes apps and autoscaling clients *)
  deployment : Type;
  set_replicas : Z -> deployment -> deployment;
  read_namespaced_deployment : string -> string -> M W deployment;
  patch_namespaced_deployment : string -> string -> deployment -> M W unit;
  hpa : Type;
  max_replicas : hpa -> Z;
  set_max_replicas : Z -> hpa -> hpa;
  read_namespaced_horizontal_pod_autoscaler : string -> string -> M W hpa;
  patch_namespaced_horizontal_pod_autoscaler : string -> string -> hpa -> M W unit;
  (* notification clients: present when configured *)
  slack_chat_postMessage : option (string -> string -> M W unit);
  twilio_messages_create : option (string -> string -> M W unit);
  emergency_contacts : list string;
  _send_email_alert : string -> bool -> M W unit;
  _create_work_order : string -> string -> M W unit;
  (* root cause analysis: the stripped content of the model's first choice *)
  chat_completions_create : list string -> DeviceData -> M W string;
  (* methods used by detect_incident *)
  _assess_business_impact : string -> IncidentSeverity -> M W string;
  _identify_stakeholders : string -> IncidentSeverity -> M W (list string);
  _classify_incident_type : list string -> M W string;
  _estimate_recovery_time : list PlanStep -> M W Z;
  _record_incident : IncidentReport -> M W unit;
  _send_immediate_alert : IncidentReport -> M W unit;
  (* methods used by execute_recovery *)
  _analyze_dependency_impact : string -> M W bool;      (* impact_analysis['high_risk'] *)
  _execute_custom_action : string -> string -> PlanStep -> M W ActionResult;
  _verify_recovery_step : string -> string -> M W bool;
  _verify_full_recovery : string -> M W bool;
  _calculate_ai_confidence : IncidentReport -> list string -> bool -> M W Q;
  _generate_follow_up_actions : IncidentReport -> bool -> list string -> M W (list string);
  _record_recovery_result : RecoveryResult -> M W unit;
  _learn_from_recovery : IncidentReport -> RecoveryResult -> M W unit;
  _send_recovery_notification : IncidentReport -> RecoveryResult -> M W unit
}.

Arguments str_of_number {W} _ _.
Arguments now {W} _ _.
Arguments strftime {W} _ _.
Arguments isoformat {W} _ _.
Arguments sleep {W} _ _.
Arguments deployment {W} _.
Arguments set_replicas {W} _ _ _.
Arguments read_namespaced_deployment {W} _ _ _.
Arguments patch_namespaced_deployment {W} _ _ _ _.
Arguments hpa {W} _.
Arguments max_replicas {W} _ _.
Arguments set_max_replicas {W} _ _ _.
Arguments read_namespaced_horizontal_pod_autoscaler {W} _ _ _.
Arguments patch_namespaced_horizontal_pod_autoscaler {W} _ _ _ _.
Arguments slack_chat_postMessage {W} _.
Arguments twilio_messages_create {W} _.
Arguments emergency_contacts {W} _.
Arguments _send_email_alert {W} _ _ _.
Arguments _create_work_order {W} _ _ _.
Arguments chat_completions_create {W} _ _ _.
Arguments _assess_business_impact {W} _ _ _.
Arguments _identify_stakeholders {W} _ _ _.
Arguments _classify_incident_type {W} _ _.
Arguments _estimate_recovery_time {W} _ _.
Arguments _record_incident {W} _ _.
Arguments _send_immediate_alert {W} _ _.
Arguments _analyze_dependency_impact {W} _ _.
Arguments _execute_custom_action {W} _ _ _ _.
Arguments _verify_recovery_step {W} _ _ _.
Arguments _verify_full_recovery {W} _ _.
Arguments _calculate_ai_confidence {W} _ _ _ _.
Arguments _generate_follow_up_actions {W} _ _ _ _.
Arguments _record_recovery_result {W} _ _.
Arguments _learn_from_recovery {W} _ _ _.
Arguments _send_recovery_notification {W} _ _ _.

(** ** Action handlers

    Each handler is one [try: ... except Exception as e: return {...}].
    The command dictionaries that the handlers build and never send are
    left out, and so are the calls to [logger]. *)

Definition ok_result (status : string) : ActionResult :=
  {| res_success := true; res_status := status; res_error := None |}.

Definition failed_result (status : string) (e : exn) : ActionResult :=
  {| res_success := false; res_status := status; res_error := Some e |}.

Definition namespace : string := "arduino-devops-ecosystem".

Definition nl : string := String (Ascii.ascii_of_nat 10) EmptyString.

(** [datetime.now()] reads the clock of the world. *)
Definition datetime_now {W} (X : External W) : M W Q :=
  fun w => (inr (now X w), w).

Section Handlers.

Context {W : Type} (X : External W).

Definition _restart_service (device_id : string) (step : PlanStep) : M W ActionResult :=
  try_except
    (let service_name := "device-" +:+ lower device_id +:+ "-service" in
     deployment ← read_namespaced_deployment X service_name namespace;
     let deployment := set_replicas X 0 deployment in
     _ ← patch_namespaced_deployment X service_name namespace deployment;
     _ ← sleep X 5;
     let deployment := set_replicas X 1 deployment in
     _ ← patch_namespaced_deployment X service_name namespace deployment;
     mret (ok_result "Service restarted successfully"))
    (fun e => mret (failed_result "Service restart failed" e)).

Definition _reboot_device (device_id : string) (step : PlanStep) : M W ActionResult :=
  try_except
    (_ ← sleep X 30;
     mret (ok_result "Device reboot initiated"))
    (fun e => mret (failed_result "Device reboot failed" e)).

Definition _recalibrate_sensors (device_id : string) (step : PlanStep) : M W ActionResult :=
  try_except
    (mret (ok_result "Sensor recalibration initiated"))
    (fun e => mret (failed_result "Sensor recalibration failed" e)).

Definition _update_firmware (device_id : string) (step : PlanStep) : M W ActionResult :=
  try_except
    (_ ← sleep X 120;
     mret (ok_result "Firmware update initiated"))
    (fun e => mret (failed_result "Firmware update failed" e)).

Definition _scale_resources (device_id : string) (step : PlanStep) : M W ActionResult :=
  try_except
    (let service_name := "device-" +:+ lower device_id +:+ "-service" in
     hpa ← read_namespaced_horizontal_pod_autoscaler X (service_name +:+ "-hpa") namespace;
     let hpa := set_max_replicas X (Z.min (max_replicas X hpa * 2) 10) hpa in
     _ ← patch_namespaced_horizontal_pod_autoscaler X (service_name +:+ "-hpa") namespace hpa;
     mret (ok_result "Resources scaled successfully"))
    (fun e => mret (failed_result "Resource scaling failed" e)).

Definition _network_reset (device_id : string) (step : PlanStep) : M W ActionResult :=
  try_except
    (mret (ok_result "Network reset initiated"))
    (fun e => mret (failed_result "Network reset failed" e)).

Definition _factory_reset (device_id : string) (step : PlanStep) : M W ActionResult :=
  try_except
    (mret (ok_result "Factory reset initiated"))
    (fun e => mret (failed_result "Factory reset failed" e)).

(** [replacement_request] carries the device and
    [step.get('description', ...)]; a plan step always has a description. *)
Definition _replace_hardware (device_id : string) (step : PlanStep) : M W ActionResult :=
  try_except
    (_ ← _create_work_order X device_id (description step);
     mret (ok_result "Hardware replacement request created"))
    (fun e => mret (failed_result "Hardware replacement request failed" e)).

(** [for contact in emergency_contacts: twilio_client.messages.create(...)] *)
Fixpoint send_sms (create : string -> string -> M W unit) (body : string)
    (contacts : list string) : M W unit :=
  match contacts with
  | [] => mret tt
  | contact :: rest => _ ← create body contact; send_sms create body rest
  end.

Definition _send_urgent_alert (message device_id : string) : M W unit :=
  try_except
    (_ ← match slack_chat_postMessage X with
         | Some post => post "#critical-alerts" message
         | None => mret tt
         end;
     _ ← match twilio_messages_create X with
         | Some create =>
             send_sms create
               ("CRITICAL: Device " +:+ device_id +:+ " needs immediate attention")
               (emergency_contacts X)
         | None => mret tt
         end;
     _send_email_alert X message true)
    (fun e => mret tt).

(** The alert text; a plan step has no ['incident_id'] key, so
    [step.get('incident_id')] is [None]. *)
Definition alert_message (device_id : string) (time : Q) : string :=
  nl +:+ "            🚨 URGENT: Manual intervention required for device " +:+ device_id
  +:+ nl +:+ "            "
  +:+ nl +:+ "            Automated recovery has been exhausted. "
  +:+ nl +:+ "            Please investigate immediately."
  +:+ nl +:+ "            "
  +:+ nl +:+ "            Incident ID: " +:+ "None"
  +:+ nl +:+ "            Time: " +:+ isoformat X time
  +:+ nl +:+ "            ".

Definition _request_manual_intervention (device_id : string) (step : PlanStep)
    : M W ActionResult :=
  try_except
    (time ← datetime_now X;
     _ ← _send_urgent_alert (alert_message device_id time) device_id;
     mret (ok_result "Manual intervention requested"))
    (fun e => mret (failed_result "Manual intervention request failed" e)).

(** The table [self.recovery_actions]. *)
Definition recovery_actions (a : RecoveryAction) : string -> PlanStep -> M W ActionResult :=
  match a with
  | RESTART_SERVICE => _restart_service
  | REBOOT_DEVICE => _reboot_device
  | RECALIBRATE_SENSORS => _recalibrate_sensors
  | UPDATE_FIRMWARE => _update_firmware
  | SCALE_RESOURCES => _scale_resources
  | NETWORK_RESET => _network_reset
  | FACTORY_RESET => _factory_reset
  | REPLACE_HARDWARE => _replace_hardware
  | MANUAL_INTERVENTION => _request_manual_intervention
  end.

End Handlers.

(** ** Recovery execution: [execute_recovery] *)

(** The local variables that the [try] blocks of [execute_recovery] update
    and that keep their updates when an exception leaves a block. *)
Record Locals : Type := {
  l_actions_taken : list string;
  l_success : bool;
  l_manual_intervention : bool;
  l_lessons_learned : list string
}.

Definition init_locals : Locals :=
  {| l_actions_taken := []; l_success := false;
     l_manual_intervention := false; l_lessons_learned := [] |}.

Definition add_action (a : string) (l : Locals) : Locals :=
  {| l_actions_taken := l_actions_taken l ++ [a]; l_success := l_success l;
     l_manual_intervention := l_manual_intervention l;
     l_lessons_learned := l_lessons_learned l |}.

Definition add_lesson (a : string) (l : Locals) : Locals :=
  {| l_actions_taken := l_actions_taken l; l_success := l_success l;
     l_manual_intervention := l_manual_intervention l;
     l_lessons_learned := l_lessons_learned l ++ [a] |}.

Definition set_success (b : bool) (l : Locals) : Locals :=
  {| l_actions_taken := l_actions_taken l; l_success := b;
     l_manual_intervention := l_manual_intervention l;
     l_lessons_learned := l_lessons_learned l |}.

Definition set_manual_intervention (b : bool) (l : Locals) : Locals :=
  {| l_actions_taken := l_actions_taken l; l_success := l_success l;
     l_manual_intervention := b;
     l_lessons_learned := l_lessons_learned l |}.

(** A computation on the locals and the world. *)
Definition call {W A} (m : M W A) : M (Locals * W) A :=
  fun '(l, w) => let '(r, w') := m w in (r, (l, w')).

Definition modify {W} (f : Locals -> Locals) : M (Locals * W) unit :=
  fun '(l, w) => (inr tt, (f l, w)).

Definition when {S} (b : bool) (m : M S unit) : M S unit :=
  if b then m else mret tt.

(** [int(x)] on a float: truncation towards zero. *)
Definition truncate (q : Q) : Z := Z.quot (Qnum q) (Zpos (Qden q)).

Definition is_manual_action (a : RecoveryAction) : bool :=
  match a with MANUAL_INTERVENTION => true | _ => false end.

Section Recovery.

Context {W : Type} (X : External W).

(** The body of the [for step in incident.recovery_plan] loop. *)
Definition run_step (device_id : string) (step : PlanStep) : M (Locals * W) unit :=
  let action := action step in
  let description := description step in
  try_except
    (_ ← match action_of_value action with
         | Some recovery_action =>
             result ← call (recovery_actions X recovery_action device_id step);
             _ ← when (is_manual_action recovery_action)
                   (modify (set_manual_intervention true));
             _ ← modify (add_action (description +:+ ": " +:+ res_status result));
             when (negb (res_success result))
               (modify (add_lesson ("Failed action: " +:+ description +:+ " - "
                                    +:+ default "Unknown error" (res_error result))))
         | None =>
             result ← call (_execute_custom_action X action device_id step);
             modify (add_action (description +:+ ": " +:+ res_status result))
         end;
     verified ← call (_verify_recovery_step X device_id action);
     when (negb verified)
       (modify (add_lesson ("Verification failed for: " +:+ description))))
    (fun e =>
       _ ← modify (add_action (description +:+ ": FAILED - " +:+ e));
       modify (add_lesson ("Exception in " +:+ description +:+ ": " +:+ e))).

Fixpoint run_plan (device_id : string) (plan : list PlanStep) : M (Locals * W) unit :=
  match plan with
  | [] => mret tt
  | step :: rest => _ ← run_step device_id step; run_plan device_id rest
  end.

(** The body of the outer [try]. *)
Definition recovery_body (incident : IncidentReport) : M (Locals * W) unit :=
  high_risk ← call (_analyze_dependency_impact X (device_id incident));
  _ ← when high_risk
        (modify (add_lesson "High dependency risk detected - proceeding with caution"));
  _ ← run_plan (device_id incident) (recovery_plan incident);
  success ← call (_verify_full_recovery X (device_id incident));
  _ ← modify (set_success success);
  when (negb success) (modify (add_lesson "Full recovery verification failed")).

(** The outer [try ... except Exception as e]. *)
Definition recovery_try (incident : IncidentReport) : M (Locals * W) unit :=
  try_except (recovery_body incident)
    (fun e =>
       _ ← modify (add_action ("Critical error during recovery: " +:+ e));
       modify (add_lesson ("Recovery process exception: " +:+ e))).

(** Runs the [try] statement from fresh locals and hands back the
    locals it leaves. *)
Definition with_locals (m : M (Locals * W) unit) : M W Locals :=
  fun w =>
    match m (init_locals, w) with
    | (inr _, (l, w')) => (inr l, w')
    | (inl e, (l, w')) => (inl e, w')
    end.

Definition execute_recovery (incident : IncidentReport) : M W RecoveryResult :=
  start_time ← datetime_now X;
  l ← with_locals (recovery_try incident);
  end_time ← datetime_now X;
  let recovery_time := truncate ((end_time - start_time) / 60)%Q in
  ai_confidence ← _calculate_ai_confidence X incident
                    (l_actions_taken l) (l_success l);
  follow_up_actions ← _generate_follow_up_actions X incident
                        (l_success l) (l_lessons_learned l);
  let result :=
    {| result_incident_id := incident_id incident;
       success := l_success l;
       actions_taken := l_actions_taken l;
       recovery_time := recovery_time;
       ai_confidence := ai_confidence;
       manual_intervention := l_manual_intervention l;
       lessons_learned := l_lessons_learned l;
       follow_up_actions := follow_up_actions |} in
  _ ← _record_recovery_result X result;
  _ ← _learn_from_recovery X incident result;
  _ ← _send_recovery_notification X incident result;
  mret result.

End Recovery.

(** ** Incident detection: [detect_incident] *)

Section Detection.

Context {W : Type} (X : External W).

Definition _analyze_root_cause (symptoms : list string) (device_data : DeviceData)
    : M W string :=
  try_except
    (chat_completions_create X symptoms device_data)
    (fun e => mret fallback_root_cause).

(** [if not device_id]: the key is absent or its string is empty. *)
Definition falsy_device_id (device_data : DeviceData) : bool :=
  match dd_device_id device_data with
  | None => true
  | Some s => String.eqb s EmptyString
  end.

Definition detect_incident (device_data : DeviceData) : M W (option IncidentReport) :=
  let device_id := default EmptyString (dd_device_id device_data) in
  if falsy_device_id device_data then mret None
  else
    symptoms ← lift_result (_detect_symptoms (str_of_number X) device_data);
    match symptoms with
    | [] => mret None
    | _ =>
        let severity := _assess_severity symptoms device_data in
        root_cause ← _analyze_root_cause symptoms device_data;
        let recovery_plan := _generate_recovery_plan root_cause severity in
        business_impact ← _assess_business_impact X device_id severity;
        stakeholders ← _identify_stakeholders X device_id severity;
        time ← datetime_now X;
        let incident_id := "INC-" +:+ strftime X time +:+ "-" +:+ device_id in
        incident_type ← _classify_incident_type X symptoms;
        detection_time ← datetime_now X;
        estimated ← _estimate_recovery_time X recovery_plan;
        let incident :=
          {| incident_id := incident_id;
             device_id := device_id;
             incident_type := incident_type;
             severity := severity;
             detection_time := detection_time;
             symptoms := symptoms;
             root_cause := Some root_cause;
             recovery_plan := recovery_plan;
             estimated_recovery_time := estimated;
             business_impact := business_impact;
             stakeholders := stakeholders |} in
        _ ← _record_incident X incident;
        _ ← when (severity_value CRITICAL <=? severity_value severity)%Z
              (_send_immediate_alert X incident);
        mret (Some incident)
    end.

End Detection.

(** ** A scripted world

    A world whose state is the log of the external calls made so far; which
    calls succeed is fixed by a script.  Used to run the functions above on
    concrete inputs. *)

Record Script : Type := {
  k8s_available : bool;         (* the Kubernetes calls return *)
  custom_action_ok : bool;      (* _execute_custom_action returns a success *)
  custom_action_raises : bool;  (* _execute_custom_action raises *)
  step_verified : bool;         (* _verify_recovery_step *)
  fully_recovered : bool;       (* _verify_full_recovery *)
  analysis_available : bool;    (* the model call of _analyze_root_cause returns *)
  analysis_answer : string
}.

Definition logged {A} (name : string) (r : exn + A) : M (list string) A :=
  fun w => (r, w ++ [name]).

(** [str] of a number, as the f-strings render it.  An [int] is its
    decimal digits, whatever their number (the limit that recent CPython
    versions put on the length of this conversion is not modelled).  A
    [float] is given by the decimal that [repr] prints for it, the shortest
    one that reads back as that float, of at most 17 significant digits;
    it is rendered as [repr] does: digits with a decimal point ([65.0],
    [3.1]) when its decimal exponent lies from -4 to 15, and the exponent
    form ([1e+16], [1.5e-07]) otherwise. *)
Fixpoint fraction_digits (fuel : nat) (r d : Z) : string :=
  match fuel with
  | O => EmptyString
  | S fuel' =>
      if (r =? 0)%Z then EmptyString
      else pretty (r * 10 / d)%Z +:+ fraction_digits fuel' ((r * 10) mod d)%Z d
  end.

(** The decimal exponent of [n / d >= 1], and of [0 < n / d < 1]. *)
Fixpoint exponent_up (fuel : nat) (n d : Z) : Z :=
  match fuel with
  | O => 0
  | S fuel' => if (n <? 10 * d)%Z then 0 else 1 + exponent_up fuel' n (10 * d)
  end.

Fixpoint exponent_down (fuel : nat) (n d : Z) : Z :=
  match fuel with
  | O => 0
  | S fuel' => if (d <=? n)%Z then 0 else exponent_down fuel' (10 * n) d - 1
  end.

Definition decimal_exponent (n d : Z) : Z :=
  if (d <=? n)%Z then exponent_up 400 n d else exponent_down 400 n d.

(** The digits of [n / d >= 0] with a decimal point. *)
Definition fixed_digits (n d : Z) : string :=
  pretty (n / d)%Z +:+ "." +:+
  (if (n mod d =? 0)%Z then "0" else fraction_digits 17 (n mod d)%Z d).

Definition exponent_digits (e : Z) : string :=
  (if (e <? 0)%Z then "-" else "+") +:+
  (if (Z.abs e <? 10)%Z then "0" else EmptyString) +:+ pretty (Z.abs e).

Definition show_float (q : Q) : string :=
  let n := Z.abs (Qnum q) in
  let d := Zpos (Qden q) in
  let sign := if (Qnum q <? 0)%Z then "-" else EmptyString in
  if (n =? 0)%Z then "0.0"
  else
    let e := decimal_exponent n d in
    if (-4 <=? e)%Z && (e <? 16)%Z then sign +:+ fixed_digits n d
    else
      let n' := if (0 <=? e)%Z then n else (n * 10 ^ (- e))%Z in
      let d' := if (0 <=? e)%Z then (d * 10 ^ e)%Z else d in
      sign +:+ pretty (n' / d')%Z +:+
      (if (n' mod d' =? 0)%Z then EmptyString
       else "." +:+ fraction_digits 17 (n' mod d')%Z d')
      +:+ "e" +:+ exponent_digits e.

Definition show_number (x : number) : string :=
  match x with
  | NaN => "nan"
  | PosInf => "inf"
  | NegInf => "-inf"
  | Int z => pretty z
  | Num q => show_float q
  end.

Definition scripted (sc : Script) : External (list string) :=
  {| str_of_number := show_number;
     now := fun w => inject_Z (Z.of_nat (length w));
     strftime := fun t => pretty (truncate t);
     isoformat := fun t => pretty (truncate t);
     sleep := fun n => logged "sleep" (inr tt);
     deployment := Z;
     set_replicas := fun n _ => n;
     read_namespaced_deployment := fun name ns =>
       logged "read_namespaced_deployment"
         (if k8s_available sc then inr 1%Z else inl "connection refused");
     patch_namespaced_deployment := fun name ns body =>
       logged "patch_namespaced_deployment"
         (if k8s_available sc then inr tt else inl "connection refused");
     hpa := Z;
     max_replicas := fun h => h;
     set_max_replicas := fun n _ => n;
     read_namespaced_horizontal_pod_autoscaler := fun name ns =>
       logged "read_namespaced_horizontal_pod_autoscaler"
         (inl "'AutonomousRecoverySystem' object has no attribute 'k8s_autoscaling_v2'");
     patch_namespaced_horizontal_pod_autoscaler := fun name ns body =>
       logged "patch_namespaced_horizontal_pod_autoscaler" (inr tt);
     slack_chat_postMessage := Some (fun channel text => logged "chat_postMessage" (inr tt));
     twilio_messages_create := None;
     emergency_contacts := ["+821012345678"];
     _send_email_alert := fun message urgent => logged "_send_email_alert" (inr tt);
     _create_work_order := fun dev reason => logged "_create_work_order" (inr tt);
     chat_completions_create := fun symptoms d =>
       logged "chat.completions.create"
         (if analysis_available sc then inr (analysis_answer sc) else inl "timeout");
     _assess_business_impact := fun dev sev => logged "_assess_business_impact" (inr "minor");
     _identify_stakeholders := fun dev sev => logged "_identify_stakeholders" (inr ["ops"]);
     _classify_incident_type := fun symptoms => logged "_classify_incident_type" (inr "hardware");
     _estimate_recovery_time := fun plan =>
       logged "_estimate_recovery_time" (inr (foldr Z.add 0%Z (estimated_time <$> plan)));
     _record_incident := fun inc => logged "_record_incident" (inr tt);
     _send_immediate_alert := fun inc => logged "_send_immediate_alert" (inr tt);
     _analyze_dependency_impact := fun dev => logged "_analyze_dependency_impact" (inr false);
     _execute_custom_action := fun a dev st =>
       logged "_execute_custom_action"
         (if custom_action_raises sc then inl "unknown action"
          else inr {| res_success := custom_action_ok sc;
                      res_status := "done"; res_error := None |});
     _verify_recovery_step := fun dev a => logged "_verify_recovery_step" (inr (step_verified sc));
     _verify_full_recovery := fun dev => logged "_verify_full_recovery" (inr (fully_recovered sc));
     _calculate_ai_confidence := fun inc acts ok =>
       logged "_calculate_ai_confidence" (inr (if ok then 1 else 0.5)%Q);
     _generate_follow_up_actions := fun inc ok lessons =>
       logged "_generate_follow_up_actions" (inr []);
     _record_recovery_result := fun r => logged "_record_recovery_result" (inr tt);
     _learn_from_recovery := fun inc r => logged "_learn_from_recovery" (inr tt);
     _send_recovery_notification := fun inc r => logged "_send_recovery_notification" (inr tt)
  |}.

Definition healthy_script : Script :=
  {| k8s_available := true; custom_action_ok := true; custom_action_raises := false;
     step_verified := true; fully_recovered := true;
     analysis_available := true; analysis_answer := "Battery cell is degraded" |}.

Definition unrecovered_script : Script :=
  {| k8s_available := true; custom_action_ok := true; custom_action_raises := false;
     step_verified := true; fully_recovered := false;
     analysis_available := false; analysis_answer := EmptyString |}.

Definition broken_script : Script :=
  {| k8s_available := false; custom_action_ok := false; custom_action_raises := true;
     step_verified := false; fully_recovered := false;
     analysis_available := false; analysis_answer := EmptyString |}.

(** An incident as [detect_incident] builds it. *)
Definition incident_of (dev root : string) (sev : IncidentSeverity) : IncidentReport :=
  {| incident_id := "INC-0-" +:+ dev;
     device_id := dev;
     incident_type := "hardware";
     severity := sev;
     detection_time := 0;
     symptoms := [];
     root_cause := Some root;
     recovery_plan := _generate_recovery_plan root sev;
     estimated_recovery_time := 0;
     business_impact := "minor";
     stakeholders := [] |}.


(** ** Device monitoring: [_monitor_device_health] *)

(** The Redis client and [json.loads], as the monitoring loop uses them. *)
Record Feed (W : Type) : Type := {
  redis_keys : string -> M W (list string);      (* redis_client.keys(pattern) *)
  redis_get : string -> M W string;              (* redis_client.get(key) *)
  json_loads : string -> exn + DeviceData        (* json.loads, in the typed view *)
}.

Arguments redis_keys {W} _ _.
Arguments redis_get {W} _ _.
Arguments json_loads {W} _ _.

Section Monitoring.

Context {W : Type} (X : External W) (F : Feed W).

(** [if incident: ... if incident.severity.value >= HIGH.value:
    recovery_result = await self.execute_recovery(incident)] *)
Definition recover_if_severe (incident : option IncidentReport) : M W unit :=
  match incident with
  | Some incident =>
      if (severity_value HIGH <=? severity_value (severity incident))%Z
      then recovery_result ← execute_recovery X incident; mret tt
      else mret tt
  | None => mret tt
  end.

(** The body of [for key in device_keys]. *)
Definition monitor_device (key : string) : M W unit :=
  raw ← redis_get F key;
  device_data ← lift_result (json_loads F raw);
  incident ← detect_incident X device_data;
  recover_if_severe incident.

Fixpoint monitor_devices (device_keys : list string) : M W unit :=
  match device_keys with
  | [] => mret tt
  | key :: rest => _ ← monitor_device key; monitor_devices rest
  end.

(** One turn of the [while True] loop: the [try] block and its [except]. *)
Definition monitor_round : M W unit :=
  try_except
    (device_keys ← redis_keys F "device:*:latest";
     _ ← monitor_devices device_keys;
     sleep X 30)
    (fun e => sleep X 60).

(** The loop, cut after [rounds] turns; an exception that leaves a turn
    ends it. *)
Fixpoint _monitor_device_health (rounds : nat) : M W unit :=
  match rounds with
  | O => mret tt
  | S rounds' => _ ← monitor_round; _monitor_device_health rounds'
  end.

End Monitoring.

(** ** Health report: [generate_health_report] *)

(** [class RecoveryIncident(Base)]: a row of [recovery_incidents].  Times
    are in seconds; the nullable columns are options. *)
Record RecoveryIncident : Type := {
  ri_id : Z;
  ri_device_id : string;
  ri_incident_type : string;
  ri_severity_level : Z;
  ri_detection_time : Q;
  ri_resolution_time : option Q;
  ri_recovery_actions : option string;
  ri_success_rate : option Q;
  ri_ai_confidence : option Q;
  ri_human_intervention : bool;
  ri_lessons_learned : option string
}.

(** One entry of ["incident_history"]. *)
Record HistoryEntry : Type := {
  h_incident_type : string;
  h_severity : Z;
  h_detection_time : string;
  h_resolution_time : option string;
  h_success_rate : option Q
}.

(** The ["statistics"] dictionary and the report. *)
Record Statistics : Type := {
  total_incidents : nat;
  resolved_incidents : nat;
  resolution_rate : Q;
  avg_resolution_time_minutes : number;
  success_rate : number
}.

Record HealthReport : Type := {
  report_device_id : string;
  report_date : string;
  health_score : Q;
  statistics : Statistics;
  failure_prediction : string;
  recommendations : list string;
  incident_history : list HistoryEntry
}.

(** The database session and the methods the report calls but the class
    does not define. *)
Record Reporting (W : Type) : Type := {
  Session : M W unit;                                   (* self.Session() *)
  session_query : M W (list RecoveryIncident);          (* session.query(RecoveryIncident) *)
  session_close : M W unit;
  _calculate_device_health_score : list RecoveryIncident -> M W Q;
  _predict_future_failures : string -> list RecoveryIncident -> M W string;
  _generate_health_recommendations : string -> list RecoveryIncident -> M W (list string)
}.

Arguments Session {W} _.
Arguments session_query {W} _.
Arguments session_close {W} _.
Arguments _calculate_device_health_score {W} _ _.
Arguments _predict_future_failures {W} _ _ _.
Arguments _generate_health_recommendations {W} _ _ _.

(** [try: ... finally: ...]: the final block runs either way; what it
    raises replaces the outcome of the block. *)
Definition try_finally {S A} (m : M S A) (final : M S unit) : M S A :=
  fun s =>
    match m s with
    | (r, s') =>
        match final s' with
        | (inr _, s'') => (r, s'')
        | (inl e, s'') => (inl e, s'')
        end
    end.

(** [np.mean] of a list of finite values, in exact arithmetic; the mean of
    the empty list is [nan]. *)
Definition Qsum (l : list Q) : Q := foldr Qplus 0%Q l.

Definition np_mean (l : list Q) : number :=
  match l with
  | [] => NaN
  | _ => Num (Qsum l / inject_Z (Z.of_nat (length l)))%Q
  end.

(** Truth of [i.resolution_time] and of [i.success_rate]: not [None], and
    for the rate not zero. *)
Definition resolved (i : RecoveryIncident) : bool :=
  match ri_resolution_time i with Some _ => true | None => false end.

Definition truthy_rate (r : option Q) : bool :=
  match r with
  | Some q => negb (Qeq_bool q 0)
  | None => false
  end.

(** [(i.resolution_time - i.detection_time).total_seconds() / 60
     for i in incidents if i.resolution_time] *)
Definition resolution_minutes (incidents : list RecoveryIncident) : list Q :=
  omap (fun i => (fun t => (t - ri_detection_time i) / 60)%Q <$> ri_resolution_time i)
    incidents.

(** [i.success_rate for i in incidents if i.success_rate] *)
Definition truthy_rates (incidents : list RecoveryIncident) : list Q :=
  omap (fun i => if truthy_rate (ri_success_rate i) then ri_success_rate i else None)
    incidents.

(** [incidents[-10:]] *)
Definition last_ten {A} (l : list A) : list A := drop (length l - 10) l.

Definition thirty_days : Q := 30 * 86400.

Section Report.

Context {W : Type} (X : External W) (R : Reporting W).

Definition report_statistics (incidents : list RecoveryIncident) : Statistics :=
  let total_incidents := length incidents in
  let resolved_incidents := length (List.filter resolved incidents) in
  let avg_resolution_time :=
    if (0 <? resolved_incidents)%nat then np_mean (resolution_minutes incidents)
    else Int 0 in
  let success_rate :=
    match incidents with
    | [] => Int 100
    | _ => np_mean (truthy_rates incidents)
    end in
  {| total_incidents := total_incidents;
     resolved_incidents := resolved_incidents;
     resolution_rate :=
       if (0 <? total_incidents)%nat
       then (inject_Z (Z.of_nat resolved_incidents)
             / inject_Z (Z.of_nat total_incidents) * 100)%Q
       else 100%Q;
     avg_resolution_time_minutes := avg_resolution_time;
     success_rate := success_rate |}.

Definition history_entry (i : RecoveryIncident) : HistoryEntry :=
  {| h_incident_type := ri_incident_type i;
     h_severity := ri_severity_level i;
     h_detection_time := isoformat X (ri_detection_time i);
     h_resolution_time := isoformat X <$> ri_resolution_time i;
     h_success_rate := ri_success_rate i |}.

(** The query: the rows of the device detected in the last thirty days. *)
Definition recent_incidents (device_id : string) (time : Q)
    (rows : list RecoveryIncident) : list RecoveryIncident :=
  List.filter
    (fun i => String.eqb (ri_device_id i) device_id
              && Qle_bool (time - thirty_days) (ri_detection_time i))
    rows.

Definition generate_health_report (device_id : string) : M W HealthReport :=
  _ ← Session R;
  try_finally
    (time ← datetime_now X;
     rows ← session_query R;
     let incidents := recent_incidents device_id time rows in
     let stats := report_statistics incidents in
     health_score ← _calculate_device_health_score R incidents;
     failure_prediction ← _predict_future_failures R device_id incidents;
     recommendations ← _generate_health_recommendations R device_id incidents;
     report_time ← datetime_now X;
     mret {| report_device_id := device_id;
             report_date := isoformat X report_time;
             health_score := health_score;
             statistics := stats;
             failure_prediction := failure_prediction;
             recommendations := recommendations;
             incident_history := history_entry <$> last_ten incidents |})
    (session_close R).

End Report.

(** ** Scripted feed and database *)

Definition scripted_feed (snapshots : list (string * DeviceData)) : Feed (list string) :=
  {| redis_keys := fun pattern => logged "redis.keys" (inr (snapshots.*1));
     redis_get := fun key => logged "redis.get" (inr key);
     json_loads := fun raw =>
       match List.find (fun kv => String.eqb kv.1 raw) snapshots with
       | Some kv => inr kv.2
       | None => inl "Expecting value"
       end |}.

Definition scripted_reporting (rows : list RecoveryIncident) (analysis_ok : bool)
    : Reporting (list string) :=
  {| Session := logged "Session" (inr tt);
     session_query := logged "session.query" (inr rows);
     session_close := logged "session.close" (inr tt);
     _calculate_device_health_score := fun incidents =>
       logged "_calculate_device_health_score" (inr 100%Q);
     _predict_future_failures := fun dev incidents =>
       logged "_predict_future_failures"
         (if analysis_ok then inr "none expected" else inl "model unavailable");
     _generate_health_recommendations := fun dev incidents =>
       logged "_generate_health_recommendations" (inr []) |}.

Definition incident_row (dev : string) (detected : Q) (resolution : option Q)
    (rate : option Q) : RecoveryIncident :=
  {| ri_id := 0; ri_device_id := dev; ri_incident_type := "hardware";
     ri_severity_level := 3; ri_detection_time := detected;
     ri_resolution_time := resolution; ri_recovery_actions := None;
     ri_success_rate := rate; ri_ai_confidence := None;
     ri_human_intervention := false; ri_lessons_learned := None |}.

(** A snapshot whose temperature reading is NaN, the rest in range. *)
Definition nan_temperature_snapshot : DeviceData :=
  {| dd_device_id := Some "ESP32-001";
     dd_metrics :=
       list_to_map
         [("battery_voltage", Num 3.7); ("temperature", NaN);
          ("humidity", Num 45.0); ("pressure", Num 1013.0);
          ("uptime_hours", Num 72.0)] |}.

(** The world [X] with a dependency analysis that raises [e]. *)
Definition without_dependency_analysis {W} (X : External W) (e : exn) : External W :=
  {| str_of_number := str_of_number X;
     now := now X;
     strftime := strftime X;
     isoformat := isoformat X;
     sleep := sleep X;
     deployment := deployment X;
     set_replicas := set_replicas X;
     read_namespaced_deployment := read_namespaced_deployment X;
     patch_namespaced_deployment := patch_namespaced_deployment X;
     hpa := hpa X;
     max_replicas := max_replicas X;
     set_max_replicas := set_max_replicas X;
     read_namespaced_horizontal_pod_autoscaler :=
       read_namespaced_horizontal_pod_autoscaler X;
     patch_namespaced_horizontal_pod_autoscaler :=
       patch_namespaced_horizontal_pod_autoscaler X;
     slack_chat_postMessage := slack_chat_postMessage X;
     twilio_messages_create := twilio_messages_create X;
     emergency_contacts := emergency_contacts X;
     _send_email_alert := _send_email_alert X;
     _create_work_order := _create_work_order X;
     chat_completions_create := chat_completions_create X;
     _assess_business_impact := _assess_business_impact X;
     _identify_stakeholders := _identify_stakeholders X;
     _classify_incident_type := _classify_incident_type X;
     _estimate_recovery_time := _estimate_recovery_time X;
     _record_incident := _record_incident X;
     _send_immediate_alert := _send_immediate_alert X;
     _analyze_dependency_impact := fun dev => raise e;
     _execute_custom_action := _execute_custom_action X;
     _verify_recovery_step := _verify_recovery_step X;
     _verify_full_recovery := _verify_full_recovery X;
     _calculate_ai_confidence := _calculate_ai_confidence X;
     _generate_follow_up_actions := _generate_follow_up_actions X;
     _record_recovery_result := _record_recovery_result X;
     _learn_from_recovery := _learn_from_recovery X;
     _send_recovery_notification := _send_recovery_notification X |}.

(** A snapshot without battery_voltage and uptime_hours whose pressure is
    the integer 10^30. *)
Definition oversized_pressure_snapshot : DeviceData :=
  {| dd_device_id := Some "ESP32-001";
     dd_metrics :=
       list_to_map
         [("temperature", Int 20); ("humidity", Int 45);
          ("pressure", Int (10 ^ 30))] |}.

(** The world [X] with an incident store that raises [e]. *)
Definition without_incident_store {W} (X : External W) (e : exn) : External W :=
  {| str_of_number := str_of_number X;
     now := now X;
     strftime := strftime X;
     isoformat := isoformat X;
     sleep := sleep X;
     deployment := deployment X;
     set_replicas := set_replicas X;
     read_namespaced_deployment := read_namespaced_deployment X;
     patch_namespaced_deployment := patch_namespaced_deployment X;
     hpa := hpa X;
     max_replicas := max_replicas X;
     set_max_replicas := set_max_replicas X;
     read_namespaced_horizontal_pod_autoscaler :=
       read_namespaced_horizontal_pod_autoscaler X;
     patch_namespaced_horizontal_pod_autoscaler :=
       patch_namespaced_horizontal_pod_autoscaler X;
     slack_chat_postMessage := slack_chat_postMessage X;
     twilio_messages_create := twilio_messages_create X;
     emergency_contacts := emergency_contacts X;
     _send_email_alert := _send_email_alert X;
     _create_work_order := _create_work_order X;
     chat_completions_create := chat_completions_create X;
     _assess_business_impact := _assess_business_impact X;
     _identify_stakeholders := _identify_stakeholders X;
     _classify_incident_type := _classify_incident_type X;
     _estimate_recovery_time := _estimate_recovery_time X;
     _record_incident := fun inc => raise e;
     _send_immediate_alert := _send_immediate_alert X;
     _analyze_dependency_impact := _analyze_dependency_impact X;
     _execute_custom_action := _execute_custom_action X;
     _verify_recovery_step := _verify_recovery_step X;
     _verify_full_recovery := _verify_full_recovery X;
     _calculate_ai_confidence := _calculate_ai_confidence X;
     _generate_follow_up_actions := _generate_follow_up_actions X;
     _record_recovery_result := _record_recovery_result X;
     _learn_from_recovery := _learn_from_recovery X;
     _send_recovery_notification := _send_recovery_notification X |}.


(** ** Auxiliary definitions for the statements *)

(** One conditional [symptoms.append(...)]. *)
Definition opt_symptom (b : bool) (s : string) : list string :=
  if b then [s] else [].

(** The methods [detect_incident] calls without a [try] around them return. *)
Definition detection_helpers_return {W} (X : External W) : Prop :=
  (forall dev sev, returns (_assess_business_impact X dev sev))
  /\ (forall dev sev, returns (_identify_stakeholders X dev sev))
  /\ (forall symptoms, returns (_classify_incident_type X symptoms))
  /\ (forall plan, returns (_estimate_recovery_time X plan))
  /\ (forall inc, returns (_record_incident X inc))
  /\ (forall inc, returns (_send_immediate_alert X inc)).


(** A snapshot for the scenario: battery at 3.1 V, the rest in range. *)
Definition low_battery_snapshot : DeviceData :=
  {| dd_device_id := Some "ESP32-001";
     dd_metrics :=
       list_to_map
         [("battery_voltage", Num 3.1); ("temperature", Num 21.5);
          ("humidity", Num 45.0); ("pressure", Num 1013.0);
          ("memory_usage", Num 40.0); ("cpu_usage", Num 12.0);
          ("error_count", Int 0); ("wifi_signal_strength", Int (-60));
          ("uptime_hours", Num 72.0)] |}.

(** The locals after the dependency analysis has returned. *)
Definition after_analysis (high : bool) : Locals :=
  if high
  then add_lesson "High dependency risk detected - proceeding with caution" init_locals
  else init_locals.




(** * Properties *)

(** ** Strings and numbers *)

Lemma prefix_app_l (kw a b : string) :
  String.prefix kw a = true -> String.prefix kw (a +:+ b) = true.
Proof.
  revert a; induction kw as [|k kw IH]; intros a H;
    [destruct (a +:+ b); reflexivity |].
  destruct a as [|c a]; simpl in *; [discriminate |].
  destruct (Ascii.ascii_dec k c); [now apply IH | discriminate].
Qed.

Lemma contains_app_l (kw a b : string) :
  contains kw a = true -> contains kw (a +:+ b) = true.
Proof.
  induction a as [|c a IH]; intros H.
  - simpl in H. rewrite orb_false_r in H.
    destruct kw; [| discriminate]. destruct b; reflexivity.
  - cbn [contains] in H. apply orb_true_iff in H as [H | H].
    + change (String c a +:+ b) with (String c (a +:+ b)).
      cbn [contains]. apply orb_true_iff; left.
      now apply (prefix_app_l kw (String c a) b).
    + change (String c a +:+ b) with (String c (a +:+ b)).
      cbn [contains]. apply orb_true_iff; right. now apply IH.
Qed.

Lemma Qle_bool_false (a b : Q) : Qle_bool a b = false <-> (b < a)%Q.
Proof.
  rewrite <- not_true_iff_false, Qle_bool_iff. split.
  - apply Qnot_le_lt.
  - apply Qlt_not_le.
Qed.

Ltac case_thresholds :=
  repeat match goal with
    | |- context [Qle_bool ?x ?y] =>
        let E := fresh "E" in
        destruct (Qle_bool x y) eqn:E;
        [apply Qle_bool_iff in E | apply Qle_bool_false in E]
    end.

(** ** Severity *)

Lemma severity_of_score_mono (a b : Q) :
  (a <= b)%Q -> severity_le (severity_of_score a) (severity_of_score b).
Proof.
  intros Hab. unfold severity_of_score, severity_le.
  case_thresholds; simpl; try lia; exfalso; lra.
Qed.

Lemma clip_severity_eq (q : Q) : clip_severity q = severity_of_score q.
Proof.
  unfold clip_severity, severity_of_score, severity_thresholds. simpl.
  case_thresholds; reflexivity.
Qed.

Lemma severity_of_score_proper (a b : Q) :
  (a == b)%Q -> severity_of_score a = severity_of_score b.
Proof.
  intros H. unfold severity_of_score.
  assert (forall c, Qle_bool c a = Qle_bool c b) as E
    by (intros c; now apply Qleb_comp).
  now rewrite !E.
Qed.

Lemma score_symptoms_acc (symptoms : list string) (acc : Z) :
  fold_left
    (fun severity_score symptom =>
       if mentions_critical symptom then severity_score + 2 else severity_score + 1)%Z
    symptoms acc
  = (acc + foldr Z.add 0 (severity_weight <$> symptoms))%Z.
Proof.
  revert acc; induction symptoms as [|s l IH]; intros acc.
  - simpl. lia.
  - rewrite fmap_cons. cbn [fold_left foldr]. rewrite IH.
    unfold severity_weight at 2. destruct (mentions_critical s); lia.
Qed.

Lemma score_symptoms_sum (symptoms : list string) :
  score_symptoms symptoms = foldr Z.add 0%Z (severity_weight <$> symptoms).
Proof. unfold score_symptoms. now rewrite score_symptoms_acc. Qed.

Lemma score_symptoms_snoc (symptoms : list string) (s : string) :
  score_symptoms (symptoms ++ [s]) = (score_symptoms symptoms + severity_weight s)%Z.
Proof.
  rewrite !score_symptoms_sum, fmap_app, foldr_app. simpl.
  generalize (severity_weight s) as w. intros w.
  induction (severity_weight <$> symptoms) as [|x l IH]; simpl; lia.
Qed.

Lemma severity_weight_pos (s : string) : (1 <= severity_weight s)%Z.
Proof. unfold severity_weight. destruct (mentions_critical s); lia. Qed.

(** C3: adding a symptom to the list never lowers the assessed severity,
    for every device snapshot. *)
Theorem assess_severity_monotone (d : DeviceData) (S : list string) (s : string) :
  severity_le (_assess_severity S d) (_assess_severity (S ++ [s]) d).
Proof.
  unfold _assess_severity. rewrite score_symptoms_snoc.
  pose proof (severity_weight_pos s) as Hw.
  apply severity_of_score_mono.
  assert (inject_Z (score_symptoms S)
          <= inject_Z (score_symptoms S + severity_weight s))%Q as Hle.
  { rewrite <- Zle_Qle. lia. }
  destruct (critical_device d); [lra | exact Hle].
Qed.

(** C4: the assessed severity is the one the specified algorithm gives:
    the sum of the per-symptom weights (2 for a symptom that mentions
    battery, temperature, memory or reboot, else 1), times the device
    multiplier (1.5 for a critical or production device, else 1), clipped
    by the thresholds 10, 7, 4, 2. *)
Theorem assess_severity_refines_spec (S : list string) (d : DeviceData) :
  _assess_severity S d = spec_severity S d.
Proof.
  unfold _assess_severity, spec_severity, device_criticality_multiplier.
  rewrite clip_severity_eq, score_symptoms_sum.
  destruct (critical_device d); [reflexivity |].
  apply severity_of_score_proper. now rewrite Qmult_1_r.
Qed.

(** ** Symptom detection *)

Lemma append_if (b : bool) (l : list string) (s : string) :
  (if b then l ++ [s] else l) = l ++ opt_symptom b s.
Proof. destruct b; simpl; [reflexivity | now rewrite app_nil_r]. Qed.

Lemma check_sensors_acc (str : number -> string)
    (data : list (string * option number)) (acc : list string) :
  check_sensors str data acc
  = match check_sensors str data [] with
    | inl e => inl e
    | inr l => inr (acc ++ l)
    end.
Proof.
  revert acc; induction data as [|[sensor value] rest IH]; intros acc; simpl.
  - now rewrite app_nil_r.
  - destruct (invalid_reading value) as [e | invalid]; [reflexivity |].
    rewrite IH. rewrite (IH (if invalid then _ else _)).
    destruct (check_sensors str rest []) as [e | l]; [reflexivity |].
    destruct invalid; simpl; [now rewrite <- app_assoc | reflexivity].
Qed.

(** The symptoms in the order the detector appends them, when the loop
    over the sensors returns. *)
Lemma detect_symptoms_eq (str : number -> string) (d : DeviceData) :
  _detect_symptoms str d =
    match check_sensors str
            [("temperature", get_reading d "temperature");
             ("humidity", get_reading d "humidity");
             ("pressure", get_reading d "pressure")] [] with
    | inl e => inl e
    | inr sensors =>
        inr (opt_symptom (num_lt (get_metric d "battery_voltage" (Int 0)) 3.2)
               ("Low battery voltage: "
                +:+ str (get_metric d "battery_voltage" (Int 0)) +:+ "V")
             ++ opt_symptom (num_gt (get_metric d "temperature" (Int 0)) 50
                             || num_lt (get_metric d "temperature" (Int 0)) (-10))
               ("Extreme temperature: "
                +:+ str (get_metric d "temperature" (Int 0)) +:+ "°C")
             ++ opt_symptom (num_gt (get_metric d "memory_usage" (Int 0)) 90)
               ("High memory usage: " +:+ str (get_metric d "memory_usage" (Int 0)) +:+ "%")
             ++ opt_symptom (num_gt (get_metric d "cpu_usage" (Int 0)) 95)
               ("High CPU usage: " +:+ str (get_metric d "cpu_usage" (Int 0)) +:+ "%")
             ++ opt_symptom (num_gt (get_metric d "error_count" (Int 0)) 10)
               ("High error count: " +:+ str (get_metric d "error_count" (Int 0)))
             ++ opt_symptom (num_lt (get_metric d "wifi_signal_strength" (Int 0)) (-80))
               ("Weak WiFi signal: "
                +:+ str (get_metric d "wifi_signal_strength" (Int 0)) +:+ "dBm")
             ++ opt_symptom (num_lt (get_metric d "uptime_hours" (Int 0)) 0.1)
               ("Frequent reboots detected: uptime "
                +:+ str (get_metric d "uptime_hours" (Int 0)) +:+ "h")
             ++ sensors)
    end.
Proof.
  unfold _detect_symptoms. cbv zeta.
  rewrite check_sensors_acc.
  destruct (check_sensors str _ []) as [e | sensors]; [reflexivity |].
  rewrite !append_if, app_nil_l, <- !app_assoc.
  reflexivity.
Qed.

Lemma check_sensors_valid (str : number -> string) (d : DeviceData) :
  (forall sensor, sensor ∈ ["temperature"; "humidity"; "pressure"] ->
     invalid_reading (get_reading d sensor) = inr false) ->
  check_sensors str
    [("temperature", get_reading d "temperature");
     ("humidity", get_reading d "humidity");
     ("pressure", get_reading d "pressure")] [] = inr [].
Proof.
  intros H. simpl.
  rewrite !H; [reflexivity | | |]; set_solver.
Qed.



(** ** Planning *)

Lemma targeted_steps_cases (root_cause : string) :
  targeted_steps root_cause ∈
    [battery_steps; temperature_steps; memory_steps; reboot_steps; network_steps; []].
Proof.
  unfold targeted_steps. cbv zeta.
  repeat match goal with
    | |- context [if ?b then _ else _] => destruct b
    end; set_solver.
Qed.

Lemma targeted_steps_not_manual (root_cause : string) :
  Forall (fun s => is_manual s = false) (targeted_steps root_cause).
Proof.
  pose proof (targeted_steps_cases root_cause) as H.
  rewrite !elem_of_cons in H.
  destruct H as [-> | [-> | [-> | [-> | [-> | [-> | H]]]]]];
    [repeat constructor .. | set_solver].
Qed.

Lemma plan_below_critical (root_cause : string) (sev : IncidentSeverity) :
  (severity_value sev < severity_value CRITICAL)%Z ->
  _generate_recovery_plan root_cause sev = diagnostic_step :: targeted_steps root_cause.
Proof.
  intros H. unfold _generate_recovery_plan. cbv zeta.
  destruct (Z.leb_spec (severity_value CRITICAL) (severity_value sev)); [lia |].
  reflexivity.
Qed.

Lemma plan_from_critical (root_cause : string) (sev : IncidentSeverity) :
  (severity_value CRITICAL <= severity_value sev)%Z ->
  _generate_recovery_plan root_cause sev =
    (diagnostic_step :: targeted_steps root_cause)
    ++ [manual_step (Z.of_nat (length (diagnostic_step :: targeted_steps root_cause)) + 1)].
Proof.
  intros H. unfold _generate_recovery_plan. cbv zeta.
  destruct (Z.leb_spec (severity_value CRITICAL) (severity_value sev)); [| lia].
  reflexivity.
Qed.

(** C5: for a severity of CRITICAL or above the plan ends with a
    MANUAL_INTERVENTION action, whatever the root cause; below CRITICAL the
    plan is the diagnostic step and the targeted steps, with no
    MANUAL_INTERVENTION action in it. *)
Theorem manual_intervention_iff_critical (root_cause : string) (sev : IncidentSeverity) :
  ((severity_value CRITICAL <= severity_value sev)%Z ->
     exists n, last (_generate_recovery_plan root_cause sev) = Some (manual_step n)
               /\ is_manual (manual_step n) = true) /\
  ((severity_value sev < severity_value CRITICAL)%Z ->
     _generate_recovery_plan root_cause sev = diagnostic_step :: targeted_steps root_cause
     /\ Forall (fun s => is_manual s = false) (_generate_recovery_plan root_cause sev)).
Proof.
  split; intros H.
  - rewrite (plan_from_critical _ _ H). eexists. split; [apply last_snoc | reflexivity].
  - rewrite (plan_below_critical _ _ H). split; [reflexivity |].
    constructor; [reflexivity | apply targeted_steps_not_manual].
Qed.

Lemma manual_intervention_iff_critical_witness :
  (exists n, last (_generate_recovery_plan "Battery cell is degraded" CRITICAL)
             = Some (manual_step n) /\ is_manual (manual_step n) = true) /\
  Forall (fun s => is_manual s = false)
    (_generate_recovery_plan "Battery cell is degraded" HIGH).
Proof.
  split.
  - apply (proj1 (manual_intervention_iff_critical "Battery cell is degraded" CRITICAL)).
    simpl. lia.
  - apply (proj2 (manual_intervention_iff_critical "Battery cell is degraded" HIGH)).
    simpl. lia.
Defined.

(** C7, as the code has it: for the fallback cause the plan is the
    diagnostic step alone, followed by a manual-intervention step exactly
    when the severity is CRITICAL or above; for every root cause and
    severity the plan starts with the diagnostic step, so it is never
    empty; and the analyzer returns the fallback cause whenever its model
    call raises. *)
Theorem fallback_plan_shape :
  (forall sev,
     _generate_recovery_plan fallback_root_cause sev =
       diagnostic_step ::
       (if (severity_value CRITICAL <=? severity_value sev)%Z then [manual_step 2] else []))
  /\ (forall root_cause sev,
        exists rest, _generate_recovery_plan root_cause sev = diagnostic_step :: rest)
  /\ (forall W (X : External W) symptoms d w e w',
        chat_completions_create X symptoms d w = (inl e, w') ->
        _analyze_root_cause X symptoms d w = (inr fallback_root_cause, w')).
Proof.
  split; [| split].
  - intros []; reflexivity.
  - intros root_cause sev. unfold _generate_recovery_plan. cbv zeta.
    destruct (_ <=? _)%Z; simpl; eauto.
  - intros W X symptoms d w e w' H.
    unfold _analyze_root_cause, try_except. now rewrite H.
Qed.

Lemma fallback_plan_shape_witness :
  _analyze_root_cause (scripted unrecovered_script) [] 
    {| dd_device_id := Some "ESP32-001"; dd_metrics := ∅ |} []
  = (inr fallback_root_cause, ["chat.completions.create"]).
Proof.
  apply (proj2 (proj2 fallback_plan_shape) _ (scripted unrecovered_script) []
           {| dd_device_id := Some "ESP32-001"; dd_metrics := ∅ |} [] "timeout").
  reflexivity.
Defined.

(** C7 as stated fails: for the fallback cause and severity MEDIUM the plan
    is the diagnostic step alone and holds no manual-intervention action. *)
Lemma fallback_plan_without_manual_step :
  _generate_recovery_plan fallback_root_cause MEDIUM = [diagnostic_step]
  /\ ~ Exists (fun s => is_manual s = true)
         (_generate_recovery_plan fallback_root_cause MEDIUM).
Proof.
  split; [reflexivity |].
  intros H. apply Exists_cons in H as [H | H]; [discriminate |].
  now apply Exists_nil in H.
Qed.

(** ** Scenarios of detection *)

Lemma low_battery_mentions_critical (x : string) :
  mentions_critical ("Low battery voltage: " +:+ x +:+ "V") = true.
Proof.
  unfold mentions_critical, critical_keywords. cbn [existsb].
  apply orb_true_iff; left.
  vm_compute. reflexivity.
Qed.

(** C6: a non-critical device reports battery_voltage = 3.1 and nothing
    else out of range, with valid temperature, humidity and pressure
    readings: the detector yields the low-battery symptom alone, its
    severity is MEDIUM, and for a root cause that mentions battery the plan
    holds the RESTART_SERVICE action that restarts the power management
    service. *)
Theorem scenario_low_battery (str : number -> string) (d : DeviceData) :
  dd_metrics d !! "battery_voltage" = Some (Num 3.1) ->
  num_gt (get_metric d "temperature" (Int 0)) 50
    || num_lt (get_metric d "temperature" (Int 0)) (-10) = false ->
  num_gt (get_metric d "memory_usage" (Int 0)) 90 = false ->
  num_gt (get_metric d "cpu_usage" (Int 0)) 95 = false ->
  num_gt (get_metric d "error_count" (Int 0)) 10 = false ->
  num_lt (get_metric d "wifi_signal_strength" (Int 0)) (-80) = false ->
  num_lt (get_metric d "uptime_hours" (Int 0)) 0.1 = false ->
  (forall sensor, sensor ∈ ["temperature"; "humidity"; "pressure"] ->
     invalid_reading (get_reading d sensor) = inr false) ->
  critical_device d = false ->
  _detect_symptoms str d = inr ["Low battery voltage: " +:+ str (Num 3.1) +:+ "V"]
  /\ _assess_severity ["Low battery voltage: " +:+ str (Num 3.1) +:+ "V"] d = MEDIUM
  /\ forall root_cause sev,
       contains "battery" (lower root_cause) = true ->
       mk_step 2 (action_value RESTART_SERVICE) "Restart power management service" 1 "low"
         ∈ _generate_recovery_plan root_cause sev.
Proof.
  intros Hbat Htemp Hmem Hcpu Herr Hwifi Hup Hsens Hdev.
  assert (_detect_symptoms str d
          = inr ["Low battery voltage: " +:+ str (Num 3.1) +:+ "V"]) as E.
  { rewrite detect_symptoms_eq, Htemp, Hmem, Hcpu, Herr, Hwifi, Hup.
    rewrite (check_sensors_valid str d Hsens).
    unfold get_metric. rewrite Hbat. reflexivity. }
  split; [exact E | split].
  - unfold _assess_severity, score_symptoms. cbn [fold_left].
    rewrite low_battery_mentions_critical, Hdev. reflexivity.
  - intros root_cause sev Hrc.
    unfold _generate_recovery_plan, targeted_steps. cbv zeta. rewrite Hrc.
    destruct (_ <=? _)%Z; set_solver.
Qed.

Lemma scenario_low_battery_witness :
  _detect_symptoms show_number low_battery_snapshot = inr ["Low battery voltage: 3.1V"]
  /\ _assess_severity ["Low battery voltage: 3.1V"] low_battery_snapshot = MEDIUM
  /\ forall root_cause sev,
       contains "battery" (lower root_cause) = true ->
       mk_step 2 (action_value RESTART_SERVICE) "Restart power management service" 1 "low"
         ∈ _generate_recovery_plan root_cause sev.
Proof.
  apply (scenario_low_battery show_number low_battery_snapshot);
    try reflexivity.
  intros sensor Hin.
  rewrite !elem_of_cons in Hin.
  destruct Hin as [-> | [-> | [-> | Hin]]]; [reflexivity .. |].
  now apply elem_of_nil in Hin.
Defined.

(** ** Incident detection *)

Ltac run_calls :=
  repeat match goal with
    | |- context [match ?f ?w with _ => _ end] =>
        lazymatch type of (f w) with
        | ((exn + _) * _)%type => destruct (f w) as [[?e|?a] ?w] eqn:?
        end
    end.

Lemma analyze_root_cause_returns {W} (X : External W) symptoms d :
  returns (_analyze_root_cause X symptoms d).
Proof.
  intros w. unfold _analyze_root_cause, try_except.
  destruct (chat_completions_create X symptoms d w) as [[e|a] w']; eauto.
Qed.

(** Past its two guards, [detect_incident] raises or returns a report of
    the device with the detected symptoms. *)
Lemma detect_incident_guarded {W} (X : External W) (d : DeviceData) (w : W)
    (l : list string) :
  falsy_device_id d = false ->
  _detect_symptoms (str_of_number X) d = inr l ->
  l <> [] ->
  match detect_incident X d w with
  | (inl _, _) => True
  | (inr None, _) => False
  | (inr (Some inc), _) =>
      dd_device_id d = Some (device_id inc) /\ symptoms inc = l
  end.
Proof.
  intros Hid Hs Hl. unfold detect_incident. rewrite Hid.
  assert (dd_device_id d = Some (default EmptyString (dd_device_id d))) as Hdev.
  { unfold falsy_device_id in Hid. destruct (dd_device_id d); [reflexivity | discriminate]. }
  unfold mbind at 1. unfold M_bind at 1. unfold lift_result. rewrite Hs.
  destruct l as [|s l]; [contradiction |].
  unfold mbind, M_bind, datetime_now, when, mret, M_ret.
  run_calls; try exact I.
  all: destruct (_ <=? _)%Z; run_calls; try exact I; split; assumption || reflexivity.
Qed.

Lemma detect_incident_returns {W} (X : External W) (d : DeviceData) (w : W)
    (l : list string) :
  detection_helpers_return X ->
  _detect_symptoms (str_of_number X) d = inr l ->
  exists r w', detect_incident X d w = (inr r, w').
Proof.
  intros (Hb & Hst & Hc & He & Hr & Ha) Hs. unfold detect_incident.
  destruct (falsy_device_id d); [unfold mret, M_ret; eauto |].
  unfold mbind at 1. unfold M_bind at 1. unfold lift_result. rewrite Hs.
  destruct l as [|s l]; [unfold mret, M_ret; eauto |].
  set (symptoms := s :: l).
  set (sev := _assess_severity symptoms d).
  set (dev := default EmptyString (dd_device_id d)).
  unfold mbind, M_bind, datetime_now.
  destruct (analyze_root_cause_returns X symptoms d w) as (rc & w1 & ->).
  destruct (Hb dev sev w1) as (bi & w2 & ->).
  destruct (Hst dev sev w2) as (sh & w3 & ->).
  destruct (Hc symptoms w3) as (ty & w4 & ->).
  destruct (He (_generate_recovery_plan rc sev) w4) as (est & w5 & ->).
  match goal with
  | |- context [_record_incident X ?inc w5] =>
      destruct (Hr inc w5) as ([] & w6 & ->);
      unfold when; destruct (_ <=? _)%Z;
      [destruct (Ha inc w6) as ([] & w7 & ->) |]
  end; unfold mret, M_ret; eauto.
Qed.

Lemma detect_incident_opens {W} (X : External W) (d : DeviceData) (w : W)
    (l : list string) :
  detection_helpers_return X ->
  falsy_device_id d = false ->
  _detect_symptoms (str_of_number X) d = inr l ->
  l <> [] ->
  exists inc w',
    detect_incident X d w = (inr (Some inc), w')
    /\ dd_device_id d = Some (device_id inc)
    /\ symptoms inc = l.
Proof.
  intros Hret Hid Hs Hl.
  destruct (detect_incident_returns X d w l Hret Hs) as (r & w' & H).
  pose proof (detect_incident_guarded X d w l Hid Hs Hl) as G.
  rewrite H in G. destruct r as [inc |]; [| contradiction].
  exists inc, w'. split; [exact H | exact G].
Qed.

(** When the detector raises, so does the detection, before any call. *)
Lemma detect_incident_raises {W} (X : External W) (d : DeviceData) (w : W) (e : exn) :
  falsy_device_id d = false ->
  _detect_symptoms (str_of_number X) d = inl e ->
  detect_incident X d w = (inl e, w).
Proof.
  intros Hid Hs. unfold detect_incident. rewrite Hid.
  unfold mbind, M_bind, lift_result. now rewrite Hs.
Qed.

(** C9, as the code has it: detection returns None exactly when the
    snapshot has no device id (the key is absent or empty, the case
    [not device_id]) or the detector finds no symptom, and then nothing is
    recorded or sent: the world is left as it was.  A returned report
    carries the snapshot's device id and exactly the detected symptoms.
    In the other cases a report is returned whenever the helper methods
    called on the way return; an exception of the detector propagates
    before any call is made. *)
Theorem detect_incident_none_iff {W} (X : External W) (d : DeviceData) (w : W) :
  (falsy_device_id d = true \/ _detect_symptoms (str_of_number X) d = inr [] ->
     detect_incident X d w = (inr None, w))
  /\ (forall w', detect_incident X d w = (inr None, w') ->
        falsy_device_id d = true \/ _detect_symptoms (str_of_number X) d = inr [])
  /\ (forall inc w', detect_incident X d w = (inr (Some inc), w') ->
        dd_device_id d = Some (device_id inc)
        /\ _detect_symptoms (str_of_number X) d = inr (symptoms inc))
  /\ (forall e,
        falsy_device_id d = false ->
        _detect_symptoms (str_of_number X) d = inl e ->
        detect_incident X d w = (inl e, w))
  /\ (detection_helpers_return X ->
      forall l,
        falsy_device_id d = false ->
        _detect_symptoms (str_of_number X) d = inr l ->
        l <> [] ->
        exists inc w', detect_incident X d w = (inr (Some inc), w')).
Proof.
  assert (forall o w', detect_incident X d w = (inr o, w') ->
            match o with
            | None => falsy_device_id d = true
                      \/ _detect_symptoms (str_of_number X) d = inr []
            | Some inc => dd_device_id d = Some (device_id inc)
                          /\ _detect_symptoms (str_of_number X) d = inr (symptoms inc)
            end) as Hcases.
  { intros o w' H.
    destruct (falsy_device_id d) eqn:Hid.
    { unfold detect_incident in H. rewrite Hid in H. inversion H; subst. now left. }
    destruct (_detect_symptoms (str_of_number X) d) as [e | l] eqn:Hs.
    { rewrite (detect_incident_raises X d w e Hid Hs) in H. discriminate. }
    destruct (list_eq_dec l []) as [-> | Hl].
    { unfold detect_incident in H. rewrite Hid in H.
      unfold mbind, M_bind, lift_result in H. rewrite Hs in H.
      inversion H; subst. now right. }
    pose proof (detect_incident_guarded X d w l Hid Hs Hl) as G.
    rewrite H in G. destruct o as [inc |]; [| contradiction].
    destruct G as [G1 G2]. split; [exact G1 | now rewrite G2]. }
  split; [| split; [| split; [| split]]].
  - intros [Hid | Hs]; unfold detect_incident.
    + now rewrite Hid.
    + destruct (falsy_device_id d); [reflexivity |].
      unfold mbind, M_bind, lift_result. now rewrite Hs.
  - intros w' H. exact (Hcases None w' H).
  - intros inc w' H. exact (Hcases (Some inc) w' H).
  - intros e. apply detect_incident_raises.
  - intros Hret l Hid Hs Hl.
    destruct (detect_incident_opens X d w l Hret Hid Hs Hl) as (inc & w' & H & _).
    eauto.
Qed.

Lemma scripted_detection_helpers_return (sc : Script) :
  detection_helpers_return (scripted sc).
Proof. repeat split; intros; intros w; eexists _, _; reflexivity. Qed.

Lemma detect_incident_none_iff_witness :
  detect_incident (scripted healthy_script)
    {| dd_device_id := None; dd_metrics := ∅ |} [] = (inr None, [])
  /\ detect_incident (scripted healthy_script) oversized_pressure_snapshot []
     = (inl isnan_type_error, [])
  /\ exists inc w',
       detect_incident (scripted healthy_script) low_battery_snapshot []
       = (inr (Some inc), w').
Proof.
  split; [| split].
  - apply (proj1 (detect_incident_none_iff (scripted healthy_script)
                    {| dd_device_id := None; dd_metrics := ∅ |} [])).
    left. reflexivity.
  - apply (proj1 (proj2 (proj2 (proj2
             (detect_incident_none_iff (scripted healthy_script)
                oversized_pressure_snapshot []))))); reflexivity.
  - apply (proj2 (proj2 (proj2 (proj2
             (detect_incident_none_iff (scripted healthy_script)
                low_battery_snapshot []))))
             (scripted_detection_helpers_return healthy_script)
             ["Low battery voltage: 3.1V"]).
    + reflexivity.
    + reflexivity.
    + discriminate.
Defined.

(** C9 as stated fails: with a device id and a detected symptom, detection
    does not return a report when the helper that records the incident
    raises: the exception leaves [detect_incident]. *)
Lemma detect_incident_raises_with_helper :
  falsy_device_id low_battery_snapshot = false
  /\ _detect_symptoms show_number low_battery_snapshot = inr ["Low battery voltage: 3.1V"]
  /\ detect_incident
       (without_incident_store (scripted healthy_script) "database is locked")
       low_battery_snapshot []
     = (inl "database is locked",
        ["chat.completions.create"; "_assess_business_impact";
         "_identify_stakeholders"; "_classify_incident_type";
         "_estimate_recovery_time"]).
Proof. repeat split. Qed.




(** ** Recovery execution *)

Lemma try_except_returns {S A} (m : M S A) (h : exn -> M S A) :
  (forall e, returns (h e)) -> returns (try_except m h).
Proof.
  intros Hh s. unfold try_except.
  destruct (m s) as [[e | a] s']; [apply Hh | eauto].
Qed.

Lemma mret_returns {S A} (a : A) : returns (mret a : M S A).
Proof. intros s. unfold mret, M_ret. eauto. Qed.

(** A handler returns in every world: whatever its body raises is turned
    into a result. *)
Lemma handler_returns {W} (X : External W) (a : RecoveryAction)
    (dev : string) (st : PlanStep) :
  returns (recovery_actions X a dev st).
Proof.
  destruct a; apply try_except_returns; intros e; apply mret_returns.
Qed.


(** What one pass of the loop body does to the locals: it returns, leaves
    [success] alone, sets [manual_intervention] only for a
    manual-intervention step, and appends one or two entries to
    [actions_taken]. *)
Lemma run_step_spec {W} (X : External W) (dev : string) (st : PlanStep)
    (l : Locals) (w : W) :
  exists l' w',
    run_step X dev st (l, w) = (inr tt, (l', w'))
    /\ l_success l' = l_success l
    /\ (l_manual_intervention l' = l_manual_intervention l
        \/ (l_manual_intervention l' = true /\ is_manual st = true))
    /\ exists added,
         l_actions_taken l' = l_actions_taken l ++ added
         /\ (1 <= length added <= 2)%nat.
Proof.
  unfold run_step, try_except, mbind, M_bind, mret, M_ret, call, modify, when.
  destruct (action_of_value (action st)) as [a |] eqn:Ea.
  - destruct (handler_returns X a dev st w) as (res & w1 & ->).
    assert (is_manual_action a = true -> is_manual st = true) as Hm.
    { intros Ha. destruct a; try discriminate.
      unfold action_of_value in Ea. apply find_some in Ea as [_ Ea].
      unfold is_manual. rewrite String.eqb_sym. exact Ea. }
    destruct (is_manual_action a), (res_success res); cbn;
      destruct (_verify_recovery_step X dev (action st) w1) as [[e | []] w2]; cbn;
      eexists _, _; (split; [reflexivity |]); cbn;
      (split; [reflexivity |]);
      (split; [first [left; reflexivity | right; split; [reflexivity | now apply Hm]] |]);
      first [ eexists [_]; split; [reflexivity | simpl; lia]
            | eexists [_; _]; split; [now rewrite <- app_assoc | simpl; lia] ].
  - destruct (_execute_custom_action X (action st) dev st w) as [[e | res] w1]; cbn.
    + eexists _, _; repeat split; [now left |].
      eexists [_]; split; [reflexivity | simpl; lia].
    + destruct (_verify_recovery_step X dev (action st) w1) as [[e | []] w2]; cbn;
        eexists _, _; (split; [reflexivity |]); cbn;
        (split; [reflexivity |]); (split; [now left |]);
        first [ eexists [_]; split; [reflexivity | simpl; lia]
              | eexists [_; _]; split; [now rewrite <- app_assoc | simpl; lia] ].
Qed.

Lemma run_plan_spec {W} (X : External W) (dev : string) (plan : list PlanStep)
    (l : Locals) (w : W) :
  exists l' w',
    run_plan X dev plan (l, w) = (inr tt, (l', w'))
    /\ l_success l' = l_success l
    /\ (l_manual_intervention l' = l_manual_intervention l
        \/ (l_manual_intervention l' = true
            /\ Exists (fun st => is_manual st = true) plan))
    /\ exists added,
         l_actions_taken l' = l_actions_taken l ++ added
         /\ (length plan <= length added <= 2 * length plan)%nat.
Proof.
  revert l w. induction plan as [|st rest IH]; intros l w.
  - exists l, w. repeat split; [now left |].
    exists []. rewrite app_nil_r. split; [reflexivity | simpl; lia].
  - cbn [run_plan]. unfold mbind, M_bind.
    destruct (run_step_spec X dev st l w) as (l1 & w1 & -> & Hs1 & Hm1 & a1 & Ha1 & Hl1).
    destruct (IH l1 w1) as (l2 & w2 & -> & Hs2 & Hm2 & a2 & Ha2 & Hl2).
    exists l2, w2. split; [reflexivity |]. split; [congruence |]. split.
    + destruct Hm2 as [Hm2 | [Hm2 Hex]].
      * destruct Hm1 as [Hm1 | [Hm1 Hst]]; [left; congruence |].
        right. split; [congruence | now apply Exists_cons_hd].
      * right. split; [exact Hm2 | now apply Exists_cons_tl].
    + exists (a1 ++ a2). rewrite Ha2, Ha1, <- app_assoc. split; [reflexivity |].
      rewrite length_app. simpl. lia.
Qed.

(** The body of the outer [try]: it sets [success] last, so a run that
    leaves the body by an exception keeps the [success] it started with. *)
Lemma recovery_body_spec {W} (X : External W) (inc : IncidentReport)
    (l : Locals) (w : W) :
  exists r l' w',
    recovery_body X inc (l, w) = (r, (l', w'))
    /\ (forall e, r = inl e -> l_success l' = l_success l)
    /\ (l_manual_intervention l' = l_manual_intervention l
        \/ (l_manual_intervention l' = true
            /\ Exists (fun st => is_manual st = true) (recovery_plan inc)))
    /\ exists added,
         l_actions_taken l' = l_actions_taken l ++ added
         /\ (length added <= 2 * length (recovery_plan inc))%nat
         /\ (r = inr tt ->
             (length (recovery_plan inc) <= length added)%nat
             /\ exists w1, _verify_full_recovery X (device_id inc) w1
                           = (inr (l_success l'), w')).
Proof.
  unfold recovery_body, mbind, M_bind, call, modify, when, mret, M_ret.
  destruct (_analyze_dependency_impact X (device_id inc) w) as [[e | high] w0].
  { eexists _, _, _. split; [reflexivity |]. split; [reflexivity |].
    split; [now left |]. exists []. rewrite app_nil_r.
    repeat split; [simpl; lia | discriminate | discriminate]. }
  destruct high; cbn;
    match goal with
    | |- context [run_plan X ?d ?p (?l0, w0)] =>
        destruct (run_plan_spec X d p l0 w0)
          as (l1 & w1 & -> & Hs1 & Hm1 & added & Ha1 & Hl1)
    end; cbn in Hs1, Hm1, Ha1;
    (destruct (_verify_full_recovery X (device_id inc) w1) as [[e | []] w2] eqn:Ev; cbn;
     eexists _, _, _; (split; [reflexivity |]); cbn;
     (split; [first [discriminate | intros; assumption] |]);
     (split; [destruct Hm1 as [Hm1 | Hm1]; [left; assumption | now right] |]);
     exists added; (split; [assumption |]); (split; [lia |]);
     first [discriminate | intros _; split; [lia | eauto]]).
Qed.

(** The whole [try ... except]: it always completes, and it reports
    [success] only when the body ran to its end and the final verification
    answered true. *)
Lemma recovery_try_spec {W} (X : External W) (inc : IncidentReport) (w : W) :
  exists l' w',
    recovery_try X inc (init_locals, w) = (inr tt, (l', w'))
    /\ (l_success l' = true ->
        recovery_body X inc (init_locals, w) = (inr tt, (l', w'))
        /\ exists w1, _verify_full_recovery X (device_id inc) w1 = (inr true, w'))
    /\ (l_manual_intervention l' = true ->
        Exists (fun st => is_manual st = true) (recovery_plan inc))
    /\ (length (l_actions_taken l') <= 2 * length (recovery_plan inc) + 1)%nat.
Proof.
  unfold recovery_try, try_except.
  destruct (recovery_body_spec X inc init_locals w)
    as (r & l1 & w1 & -> & Hs & Hm & added & Ha & Hl & Hv).
  destruct r as [e | []].
  - unfold mbind, M_bind, modify. cbn.
    eexists _, _. split; [reflexivity |]. cbn. split; [| split].
    + rewrite (Hs e eq_refl). discriminate.
    + intros H. destruct Hm as [Hm | [_ Hm]]; [| exact Hm].
      rewrite H in Hm. discriminate.
    + rewrite Ha, !length_app. simpl. lia.
  - exists l1, w1. split; [reflexivity |]. split; [| split].
    + intros H. split; [reflexivity |].
      destruct (Hv eq_refl) as (_ & w0 & Hw0). rewrite H in Hw0. eauto.
    + intros H. destruct Hm as [Hm | [_ Hm]]; [| exact Hm].
      rewrite H in Hm. discriminate.
    + rewrite Ha, length_app. simpl. lia.
Qed.

(** A returned result holds the locals that the [try] statement left. *)
Lemma execute_recovery_inv {W} (X : External W) (inc : IncidentReport)
    (w w' : W) (r : RecoveryResult) :
  execute_recovery X inc w = (inr r, w') ->
  exists l w1,
    recovery_try X inc (init_locals, w) = (inr tt, (l, w1))
    /\ success r = l_success l
    /\ actions_taken r = l_actions_taken l
    /\ manual_intervention r = l_manual_intervention l
    /\ lessons_learned r = l_lessons_learned l.
Proof.
  intros H.
  destruct (recovery_try_spec X inc w) as (l & w1 & Ht & _).
  exists l, w1. split; [exact Ht |].
  unfold execute_recovery, mbind, M_bind, datetime_now, with_locals, mret, M_ret in H.
  rewrite Ht in H.
  repeat match type of H with
    | context [match ?f ?w with _ => _ end] =>
        lazymatch type of (f w) with
        | ((exn + _) * _)%type => destruct (f w) as [[?e|?a] ?w]
        end
    end; inversion H; subst; repeat split.
Qed.





Lemma action_of_value_some (v : string) (a : RecoveryAction) :
  action_of_value v = Some a -> v = action_value a.
Proof.
  intros H. unfold action_of_value in H. apply find_some in H as [_ H].
  apply String.eqb_eq in H. now symmetry.
Qed.

Lemma is_manual_action_of_value (st : PlanStep) :
  is_manual st = match action_of_value (action st) with
                 | Some a => is_manual_action a
                 | None => false
                 end.
Proof.
  unfold is_manual.
  destruct (action_of_value (action st)) as [a |] eqn:E.
  - apply action_of_value_some in E. rewrite E.
    destruct a; reflexivity.
  - destruct (String.eqb_spec (action st) (action_value MANUAL_INTERVENTION)) as [H | H];
      [| reflexivity].
    rewrite H in E. discriminate.
Qed.

(** One pass of the loop body sets [manual_intervention] exactly for a
    manual-intervention step and only adds to [lessons_learned]. *)
Lemma run_step_flags {W} (X : External W) (dev : string) (st : PlanStep)
    (l : Locals) (w : W) :
  exists l' w',
    run_step X dev st (l, w) = (inr tt, (l', w'))
    /\ l_manual_intervention l' = l_manual_intervention l || is_manual st
    /\ exists lessons, l_lessons_learned l' = l_lessons_learned l ++ lessons.
Proof.
  rewrite is_manual_action_of_value.
  unfold run_step, try_except, mbind, M_bind, mret, M_ret, call, modify, when.
  destruct (action_of_value (action st)) as [a |].
  - destruct (handler_returns X a dev st w) as (res & w1 & ->).
    destruct (is_manual_action a), (res_success res); cbn;
      destruct (_verify_recovery_step X dev (action st) w1) as [[e | []] w2]; cbn;
      eexists _, _; (split; [reflexivity |]); cbn;
      (split; [now rewrite ?orb_true_r, ?orb_false_r |]);
      first [ exists []; now rewrite app_nil_r
            | eexists [_]; reflexivity
            | eexists [_; _]; now rewrite <- app_assoc ].
  - destruct (_execute_custom_action X (action st) dev st w) as [[e | res] w1]; cbn.
    + eexists _, _. split; [reflexivity |]. cbn.
      split; [now rewrite orb_false_r |]. eexists [_]; reflexivity.
    + destruct (_verify_recovery_step X dev (action st) w1) as [[e | []] w2]; cbn;
        eexists _, _; (split; [reflexivity |]); cbn;
        (split; [now rewrite orb_false_r |]);
        first [ exists []; now rewrite app_nil_r | eexists [_]; reflexivity ].
Qed.

Lemma run_plan_flags {W} (X : External W) (dev : string) (plan : list PlanStep)
    (l : Locals) (w : W) :
  exists l' w',
    run_plan X dev plan (l, w) = (inr tt, (l', w'))
    /\ l_manual_intervention l' = l_manual_intervention l || existsb is_manual plan
    /\ exists lessons, l_lessons_learned l' = l_lessons_learned l ++ lessons.
Proof.
  revert l w. induction plan as [|st rest IH]; intros l w.
  - exists l, w. split; [reflexivity |]. split; [now rewrite orb_false_r |].
    exists []. now rewrite app_nil_r.
  - cbn [run_plan existsb]. unfold mbind, M_bind.
    destruct (run_step_flags X dev st l w) as (l1 & w1 & -> & Hm1 & a1 & Ha1).
    destruct (IH l1 w1) as (l2 & w2 & -> & Hm2 & a2 & Ha2).
    exists l2, w2. split; [reflexivity |]. split.
    + rewrite Hm2, Hm1. now rewrite orb_assoc.
    + exists (a1 ++ a2). now rewrite Ha2, Ha1, app_assoc.
Qed.


(** The [try] statement when the dependency analysis returns: one pass
    over the plan, then the final verification, whose outcome ends the
    statement in one of three ways. *)
Lemma recovery_try_shape {W} (X : External W) (inc : IncidentReport)
    (w w0 : W) (high : bool) :
  _analyze_dependency_impact X (device_id inc) w = (inr high, w0) ->
  exists l1 w1,
    run_plan X (device_id inc) (recovery_plan inc) (after_analysis high, w0)
    = (inr tt, (l1, w1))
    /\ match _verify_full_recovery X (device_id inc) w1 with
       | (inl e, w2) =>
           recovery_try X inc (init_locals, w)
           = (inr tt,
              (add_lesson ("Recovery process exception: " +:+ e)
                 (add_action ("Critical error during recovery: " +:+ e) l1), w2))
       | (inr true, w2) =>
           recovery_try X inc (init_locals, w) = (inr tt, (set_success true l1, w2))
       | (inr false, w2) =>
           recovery_try X inc (init_locals, w)
           = (inr tt,
              (add_lesson "Full recovery verification failed" (set_success false l1), w2))
       end.
Proof.
  intros Ha.
  destruct (run_plan_spec X (device_id inc) (recovery_plan inc) (after_analysis high) w0)
    as (l1 & w1 & E & _).
  exists l1, w1. split; [exact E |].
  unfold recovery_try, try_except, recovery_body, mbind, M_bind, call, modify, when,
    mret, M_ret.
  rewrite Ha. unfold after_analysis in E.
  destruct high; cbn; rewrite E; cbn;
    destruct (_verify_full_recovery X (device_id inc) w1) as [[e | []] w2];
    reflexivity.
Qed.




(** C2, as the code has it: [execute_recovery] counts no attempts.  It
    makes one pass over the plan, leaving at most two entries per step and
    one for a critical error in [actions_taken], and it requests manual
    intervention only if the plan holds a manual-intervention step.  The
    pass is followed by one final verification, and whatever its outcome
    the [try] statement ends in the world that this call left.  When the
    verification answers false, [success] is false, [actions_taken] holds
    the entries of the single pass, [manual_intervention] is set exactly
    when the plan holds a manual-intervention step, and the failure is the
    last lesson. *)
Theorem recovery_is_single_pass {W} (X : External W) (inc : IncidentReport)
    (w w' : W) (r : RecoveryResult) :
  execute_recovery X inc w = (inr r, w') ->
  (manual_intervention r = true ->
     Exists (fun st => is_manual st = true) (recovery_plan inc))
  /\ (length (actions_taken r) <= 2 * length (recovery_plan inc) + 1)%nat
  /\ forall high w0 l1 w1,
       _analyze_dependency_impact X (device_id inc) w = (inr high, w0) ->
       run_plan X (device_id inc) (recovery_plan inc) (after_analysis high, w0)
       = (inr tt, (l1, w1)) ->
       (exists l,
          recovery_try X inc (init_locals, w)
          = (inr tt, (l, (_verify_full_recovery X (device_id inc) w1).2)))
       /\ forall w2,
            _verify_full_recovery X (device_id inc) w1 = (inr false, w2) ->
            recovery_try X inc (init_locals, w)
            = (inr tt,
               (add_lesson "Full recovery verification failed" (set_success false l1),
                w2))
            /\ success r = false
            /\ actions_taken r = l_actions_taken l1
            /\ manual_intervention r = existsb is_manual (recovery_plan inc)
            /\ lessons_learned r
               = l_lessons_learned l1 ++ ["Full recovery verification failed"].
Proof.
  intros H.
  destruct (execute_recovery_inv X inc w w' r H) as (l & w3 & Ht & Es & Ea & Em & El).
  destruct (recovery_try_spec X inc w) as (l' & w3' & Ht' & _ & Hm & Hl).
  rewrite Ht in Ht'. inversion Ht'; subst l' w3'.
  split; [now rewrite Em |]. split; [now rewrite Ea |].
  intros high w0 l1 w1 Han Hplan.
  destruct (recovery_try_shape X inc w w0 high Han) as (l1' & w1' & Hplan' & Hshape).
  rewrite Hplan in Hplan'. inversion Hplan'; subst l1' w1'.
  split.
  { destruct (_verify_full_recovery X (device_id inc) w1) as [[e | []] w2];
      rewrite Hshape; eauto. }
  intros w2 Hv. rewrite Hv in Hshape. split; [exact Hshape |].
  rewrite Ht in Hshape. inversion Hshape; subst l w3.
  rewrite Es, Ea, Em, El. cbn.
  repeat split.
  destruct (run_plan_flags X (device_id inc) (recovery_plan inc) (after_analysis high) w0)
    as (l2 & w4 & E & Hflag & _).
  rewrite Hplan in E. inversion E; subst l2 w4.
  rewrite Hflag. unfold after_analysis. now destruct high.
Qed.

Lemma recovery_is_single_pass_witness :
  exists r l1 w2,
    recovery_try (scripted unrecovered_script)
      (incident_of "ESP32-001" fallback_root_cause HIGH) (init_locals, [])
    = (inr tt,
       (add_lesson "Full recovery verification failed" (set_success false l1), w2))
    /\ success r = false
    /\ actions_taken r = l_actions_taken l1
    /\ manual_intervention r
       = existsb is_manual
           (recovery_plan (incident_of "ESP32-001" fallback_root_cause HIGH))
    /\ lessons_learned r
       = l_lessons_learned l1 ++ ["Full recovery verification failed"].
Proof.
  do 3 eexists.
  eassert (execute_recovery (scripted unrecovered_script)
             (incident_of "ESP32-001" fallback_root_cause HIGH) [] = (inr _, _)) as H
    by (vm_compute; reflexivity).
  eapply (fun high w0 l1 w1 Ha Hp =>
            proj2 (proj2 (proj2 (recovery_is_single_pass _ _ _ _ _ H))
                     high w0 l1 w1 Ha Hp)).
  - vm_compute. reflexivity.
  - vm_compute. reflexivity.
  - vm_compute. reflexivity.
Defined.

(** C2 as stated fails: after a failed final verification the recovery
    ends: one entry per step, one call of the final verification, no
    second pass over the plan and no manual intervention. *)
Lemma failed_verification_ends_recovery :
  exists r,
    execute_recovery (scripted unrecovered_script)
      (incident_of "ESP32-001" fallback_root_cause HIGH) []
    = (inr r,
       ["_analyze_dependency_impact"; "_execute_custom_action";
        "_verify_recovery_step"; "_verify_full_recovery";
        "_calculate_ai_confidence"; "_generate_follow_up_actions";
        "_record_recovery_result"; "_learn_from_recovery";
        "_send_recovery_notification"])
    /\ success r = false
    /\ manual_intervention r = false
    /\ actions_taken r = ["Perform comprehensive diagnostic check: done"]
    /\ lessons_learned r = ["Full recovery verification failed"].
Proof. eexists. split; [vm_compute; reflexivity | repeat split]. Qed.

(** ** The device of [main]

    The snapshot that [main] feeds to the system, a critical device with
    every check firing: seven symptoms, a score of 11 * 1.5, CATASTROPHIC. *)

Example main_device_is_catastrophic :
  let problem_device_data :=
    {| dd_device_id := Some "ESP32-CRITICAL-001";
       dd_metrics :=
         list_to_map
           [("temperature", Num 65.0); ("humidity", Num 45.0);
            ("pressure", Num 1013.0); ("battery_voltage", Num 3.1);
            ("cpu_usage", Num 98.0); ("memory_usage", Num 95.0);
            ("wifi_signal_strength", Int (-85)); ("error_count", Int 15);
            ("uptime_hours", Num 0.05)] |} in
  let symptoms :=
    ["Low battery voltage: 3.1V"; "Extreme temperature: 65.0°C";
     "High memory usage: 95.0%"; "High CPU usage: 98.0%";
     "High error count: 15"; "Weak WiFi signal: -85dBm";
     "Frequent reboots detected: uptime 0.05h"] in
  _detect_symptoms show_number problem_device_data = inr symptoms
  /\ score_symptoms symptoms = 11%Z
  /\ _assess_severity symptoms problem_device_data = CATASTROPHIC
  /\ is_manual <$> last (_generate_recovery_plan "Battery and memory exhausted" CATASTROPHIC)
     = Some true.
Proof. vm_compute. repeat split. Qed.

(** * Further properties of the code *)

(** ** Enumerations *)

(** X1: [RecoveryAction(ra.value)] gives back [ra], and a string is the
    value of at most one action: the lookup by value and [.value] are
    inverse to each other. *)
Theorem action_of_value_round_trip (a : RecoveryAction) (v : string) :
  action_of_value v = Some a <-> v = action_value a.
Proof.
  split.
  - intros H. unfold action_of_value in H. apply find_some in H as [_ H].
    apply String.eqb_eq in H. now symmetry.
  - intros ->. destruct a; reflexivity.
Qed.

(** ** Planning *)

Lemma lower_ascii_idemp (c : Ascii.ascii) : lower_ascii (lower_ascii c) = lower_ascii c.
Proof. destruct c as [[] [] [] [] [] [] [] []]; reflexivity. Qed.

(** A byte of a UTF-8 sequence comes out of [lower_ascii] only as itself. *)
Lemma lower_ascii_high (c b : Ascii.ascii) :
  lower_ascii c = b -> (128 <= Ascii.nat_of_ascii b)%nat -> c = b.
Proof.
  intros <-. destruct c as [[] [] [] [] [] [] [] []]; vm_compute; intros H;
    solve [reflexivity | exfalso; lia].
Qed.

(** A continuation byte at the head of [lower s] is the head of [s]. *)
Lemma lower_head (s rest : string) (b : Ascii.ascii) :
  (128 <= Ascii.nat_of_ascii b)%nat ->
  b <> byte 196 -> b <> byte 226 ->
  lower s = String b rest ->
  exists rest', s = String b rest' /\ rest = lower rest'.
Proof.
  intros Hb H1 H2 H. destruct s as [|c s']; [discriminate |].
  cbn [lower] in H.
  destruct (Ascii.eqb_spec c (byte 196)) as [-> | Hc1].
  { destruct s' as [|c1 r]; [inversion H; congruence |].
    destruct (Ascii.eqb c1 (byte 176)); inversion H; subst; try congruence.
    exfalso. vm_compute in Hb. lia. }
  destruct (Ascii.eqb_spec c (byte 226)) as [-> | Hc2].
  { destruct s' as [|c1 [|c2 r]]; try (inversion H; congruence).
    destruct (Ascii.eqb c1 (byte 132) && Ascii.eqb c2 (byte 170));
      inversion H; subst; try congruence.
    exfalso. vm_compute in Hb. lia. }
  injection H as Hc Hr.
  apply lower_ascii_high in Hc; [| exact Hb]. subst c.
  exists s'. split; [reflexivity | now symmetry].
Qed.

Lemma lower_ascii_not_lead (c b : Ascii.ascii) :
  (128 <= Ascii.nat_of_ascii b)%nat -> c <> b -> lower_ascii c <> b.
Proof. intros Hb Hc H. apply Hc. now apply lower_ascii_high. Qed.

Lemma lower_idemp_upto (n : nat) (s : string) :
  (String.length s <= n)%nat -> lower (lower s) = lower s.
Proof.
  revert s. induction n as [|n IH]; intros s Hn.
  { destruct s; [reflexivity | simpl in Hn; lia]. }
  destruct s as [|c s']; [reflexivity |].
  cbn [String.length] in Hn.
  assert (lower (lower s') = lower s') as IHs by (apply IH; lia).
  cbn [lower].
  destruct (Ascii.eqb_spec c (byte 196)) as [-> | Hc1].
  { destruct s' as [|c1 r]; [reflexivity |].
    destruct (Ascii.eqb_spec c1 (byte 176)) as [-> | Hc].
    - cbn [String.length] in Hn.
      assert (lower (lower r) = lower r) as IHr by (apply IH; lia).
      change (lower (String (byte 105) (String (byte 204) (String (byte 135) (lower r)))))
        with (String (byte 105) (String (byte 204) (String (byte 135) (lower (lower r))))).
      now rewrite IHr.
    - remember (String c1 r) as s1 eqn:Es1.
      cbn [lower]. rewrite Ascii.eqb_refl.
      destruct (lower s1) as [|d1 q] eqn:El; [reflexivity |].
      destruct (Ascii.eqb_spec d1 (byte 176)) as [-> | Hd]; [| now rewrite IHs].
      exfalso. apply lower_head in El as (r' & E & _);
        [| vm_compute; lia | discriminate | discriminate].
      subst s1. inversion E. congruence. }
  destruct (Ascii.eqb_spec c (byte 226)) as [-> | Hc2].
  { assert ((forall r, s' <> String (byte 132) (String (byte 170) r)) ->
            lower (String (byte 226) (lower s')) = String (byte 226) (lower s')) as Hkeep.
    { intros Hs. cbn [lower]. change (Ascii.eqb (byte 226) (byte 196)) with false.
      rewrite Ascii.eqb_refl. cbv iota.
      destruct (lower s') as [|d1 q] eqn:El; [reflexivity |].
      destruct q as [|d2 q]; [now rewrite IHs |].
      destruct (Ascii.eqb_spec d1 (byte 132)) as [-> | Hd1]; [| now rewrite IHs].
      destruct (Ascii.eqb_spec d2 (byte 170)) as [-> | Hd2]; [| now rewrite IHs].
      exfalso. apply lower_head in El as (r1 & E1 & El1);
        [| vm_compute; lia | discriminate | discriminate].
      symmetry in El1. apply lower_head in El1 as (r2 & E2 & _);
        [| vm_compute; lia | discriminate | discriminate].
      subst. now apply (Hs r2). }
    destruct s' as [|c1 [|c2 r]]; [reflexivity | apply Hkeep; discriminate |].
    destruct (Ascii.eqb_spec c1 (byte 132)) as [-> | Hd1];
      [| apply Hkeep; intros r' E; inversion E; congruence].
    destruct (Ascii.eqb_spec c2 (byte 170)) as [-> | Hd2];
      [| apply Hkeep; intros r' E; inversion E; congruence].
    cbn [andb String.length] in *.
    assert (lower (lower r) = lower r) as IHr by (apply IH; lia).
    change (lower (String (byte 107) (lower r)))
      with (String (byte 107) (lower (lower r))).
    now rewrite IHr. }
  cbn [lower].
  destruct (Ascii.eqb_spec (lower_ascii c) (byte 196)) as [E | _].
  { exfalso. apply lower_ascii_high in E; [congruence | vm_compute; lia]. }
  destruct (Ascii.eqb_spec (lower_ascii c) (byte 226)) as [E | _].
  { exfalso. apply lower_ascii_high in E; [congruence | vm_compute; lia]. }
  now rewrite lower_ascii_idemp, IHs.
Qed.

Lemma lower_idemp (s : string) : lower (lower s) = lower s.
Proof. now apply (lower_idemp_upto (String.length s)). Qed.

Lemma targeted_steps_length (root_cause : string) :
  length (targeted_steps root_cause) = 0%nat \/ length (targeted_steps root_cause) = 2%nat.
Proof.
  pose proof (targeted_steps_cases root_cause) as H.
  rewrite !elem_of_cons in H.
  destruct H as [-> | [-> | [-> | [-> | [-> | [-> | H]]]]]];
    [right; reflexivity .. | left; reflexivity | set_solver].
Qed.

Lemma targeted_steps_numbers (root_cause : string) :
  step <$> targeted_steps root_cause
  = (fun i => Z.of_nat i + 2)%Z <$> seq 0 (length (targeted_steps root_cause)).
Proof.
  pose proof (targeted_steps_cases root_cause) as H.
  rewrite !elem_of_cons in H.
  destruct H as [-> | [-> | [-> | [-> | [-> | [-> | H]]]]]];
    [reflexivity .. | set_solver].
Qed.

(** X2: the steps of a plan are numbered 1, 2, ... in their order, for
    every root cause and severity, and a plan has between one and four
    steps. *)
Theorem plan_steps_are_numbered (root_cause : string) (sev : IncidentSeverity) :
  step <$> _generate_recovery_plan root_cause sev
  = (fun i => Z.of_nat i + 1)%Z
      <$> seq 0 (length (_generate_recovery_plan root_cause sev))
  /\ (1 <= length (_generate_recovery_plan root_cause sev) <= 4)%nat.
Proof.
  unfold _generate_recovery_plan. cbv zeta. rewrite app_nil_l.
  pose proof (targeted_steps_numbers root_cause) as Hn.
  pose proof (targeted_steps_cases root_cause) as H.
  rewrite !elem_of_cons in H.
  destruct (_ <=? _)%Z;
    destruct H as [H | [H | [H | [H | [H | [H | H]]]]]];
    try (exfalso; set_solver); rewrite H; split; (reflexivity || (simpl; lia)).
Qed.

(** X3: the planner reads the root cause without regard to letter case,
    and a cause that mentions battery gets the battery steps whatever else
    it mentions. *)
Theorem plan_ignores_case (root_cause : string) (sev : IncidentSeverity) :
  _generate_recovery_plan (lower root_cause) sev = _generate_recovery_plan root_cause sev
  /\ (contains "battery" (lower root_cause) = true ->
      _generate_recovery_plan root_cause sev
      = [diagnostic_step] ++ battery_steps
        ++ (if (severity_value CRITICAL <=? severity_value sev)%Z
            then [manual_step 4] else [])).
Proof.
  split.
  - unfold _generate_recovery_plan, targeted_steps. cbv zeta.
    now rewrite lower_idemp.
  - intros H. unfold _generate_recovery_plan, targeted_steps. cbv zeta.
    rewrite H. destruct (_ <=? _)%Z; reflexivity.
Qed.

Lemma plan_ignores_case_witness :
  _generate_recovery_plan "BATTERY overheated: TEMPERATURE high" HIGH
  = [diagnostic_step] ++ battery_steps ++ [].
Proof.
  apply (proj2 (plan_ignores_case "BATTERY overheated: TEMPERATURE high" HIGH)).
  reflexivity.
Defined.

(** A cause written with the Kelvin sign: [str.lower] turns it into [k]
    and the planner picks the network steps. *)
Example kelvin_sign_reads_as_k :
  let kelvin := String (byte 226) (String (byte 132) (String (byte 170) EmptyString)) in
  _generate_recovery_plan ("NETWOR" +:+ kelvin +:+ " failure") HIGH
  = [diagnostic_step] ++ network_steps.
Proof. vm_compute. reflexivity. Qed.

(** ** Severity *)

Lemma weights_submseteq (l k : list string) :
  l ⊆+ k ->
  (foldr Z.add 0 (severity_weight <$> l) <= foldr Z.add 0 (severity_weight <$> k))%Z.
Proof.
  induction 1 as [| x l k _ IH | x y l | x l k _ IH | l k m _ IH1 _ IH2];
    rewrite ?fmap_cons; cbn [foldr]; try lia.
  pose proof (severity_weight_pos x). lia.
Qed.

Lemma score_symptoms_bounds (symptoms : list string) :
  (Z.of_nat (length symptoms) <= score_symptoms symptoms
   <= 2 * Z.of_nat (length symptoms))%Z.
Proof.
  rewrite score_symptoms_sum.
  induction symptoms as [|s l IH]; [simpl; lia |].
  rewrite fmap_cons. cbn [foldr length].
  unfold severity_weight at 1 3. destruct (mentions_critical s); lia.
Qed.

Lemma assess_severity_score_mono (d : DeviceData) (S T : list string) :
  (score_symptoms S <= score_symptoms T)%Z ->
  severity_le (_assess_severity S d) (_assess_severity T d).
Proof.
  intros H. unfold _assess_severity. apply severity_of_score_mono.
  assert (inject_Z (score_symptoms S) <= inject_Z (score_symptoms T))%Q as Hle
    by now rewrite <- Zle_Qle.
  destruct (critical_device d); [lra | exact Hle].
Qed.

(** X4: the severity depends on the symptoms as a multiset: it is the
    same for every reordering of the list, and it does not decrease when
    symptoms are added anywhere in the list. *)
Theorem assess_severity_multiset (d : DeviceData) (S T : list string) :
  (S ≡ₚ T -> _assess_severity S d = _assess_severity T d)
  /\ (S ⊆+ T -> severity_le (_assess_severity S d) (_assess_severity T d)).
Proof.
  split.
  - intros HP.
    assert (score_symptoms S = score_symptoms T) as E.
    { rewrite !score_symptoms_sum.
      pose proof (weights_submseteq S T) as H1.
      pose proof (weights_submseteq T S) as H2.
      rewrite HP in H1 at 1. rewrite <- HP in H2 at 1.
      specialize (H1 (reflexivity _)). specialize (H2 (reflexivity _)). lia. }
    unfold _assess_severity. now rewrite E.
  - intros Hs. apply assess_severity_score_mono.
    rewrite !score_symptoms_sum. now apply weights_submseteq.
Qed.

Lemma assess_severity_multiset_witness :
  _assess_severity ["High CPU usage: 98%"; "Low battery voltage: 3.1V"] low_battery_snapshot
  = _assess_severity ["Low battery voltage: 3.1V"; "High CPU usage: 98%"] low_battery_snapshot
  /\ severity_le
       (_assess_severity ["High CPU usage: 98%"] low_battery_snapshot)
       (_assess_severity ["Low battery voltage: 3.1V"; "High CPU usage: 98%"]
          low_battery_snapshot).
Proof.
  split.
  - apply (proj1 (assess_severity_multiset low_battery_snapshot
                    ["High CPU usage: 98%"; "Low battery voltage: 3.1V"]
                    ["Low battery voltage: 3.1V"; "High CPU usage: 98%"])).
    apply Permutation_swap.
  - apply (proj2 (assess_severity_multiset low_battery_snapshot
                    ["High CPU usage: 98%"]
                    ["Low battery voltage: 3.1V"; "High CPU usage: 98%"])).
    apply submseteq_cons. reflexivity.
Defined.

(** X5: for the same symptoms, a critical or production device is never
    assessed lower than a device that is neither. *)
Theorem critical_device_never_lower (S : list string) (d d' : DeviceData) :
  critical_device d = false ->
  critical_device d' = true ->
  severity_le (_assess_severity S d) (_assess_severity S d').
Proof.
  intros Hd Hd'. unfold _assess_severity. rewrite Hd, Hd'.
  apply severity_of_score_mono.
  pose proof (score_symptoms_bounds S) as [Hlo _].
  assert (0 <= inject_Z (score_symptoms S))%Q as H0.
  { change 0%Q with (inject_Z 0). rewrite <- Zle_Qle. lia. }
  lra.
Qed.

Lemma critical_device_never_lower_witness :
  severity_le
    (_assess_severity ["Low battery voltage: 3.1V"; "High CPU usage: 98%"] low_battery_snapshot)
    (_assess_severity ["Low battery voltage: 3.1V"; "High CPU usage: 98%"]
       {| dd_device_id := Some "ESP32-CRITICAL-001"; dd_metrics := ∅ |}).
Proof.
  apply (critical_device_never_lower _ low_battery_snapshot
           {| dd_device_id := Some "ESP32-CRITICAL-001"; dd_metrics := ∅ |});
    reflexivity.
Defined.

(** X6: what the number of symptoms alone decides, on every device: no
    symptom gives LOW; a single symptom stays below HIGH; CATASTROPHIC
    needs at least four symptoms; four symptoms give at least HIGH; and
    ten symptoms give CATASTROPHIC. *)
Theorem severity_by_symptom_count (S : list string) (d : DeviceData) :
  (length S = 0%nat -> _assess_severity S d = LOW)
  /\ ((length S <= 1)%nat ->
      (severity_value (_assess_severity S d) < severity_value HIGH)%Z)
  /\ (_assess_severity S d = CATASTROPHIC -> (4 <= length S)%nat)
  /\ ((4 <= length S)%nat ->
      (severity_value HIGH <= severity_value (_assess_severity S d))%Z)
  /\ ((10 <= length S)%nat -> _assess_severity S d = CATASTROPHIC).
Proof.
  pose proof (score_symptoms_bounds S) as [Hlo Hhi].
  assert (inject_Z (Z.of_nat (length S)) <= inject_Z (score_symptoms S))%Q as Qlo
    by now rewrite <- Zle_Qle.
  assert (inject_Z (score_symptoms S) <= inject_Z (2 * Z.of_nat (length S)))%Q as Qhi
    by now rewrite <- Zle_Qle.
  rewrite inject_Z_mult in Qhi.
  unfold _assess_severity, severity_of_score.
  split; [| split; [| split; [| split]]].
  - intros H. rewrite H in *. change (inject_Z (Z.of_nat 0)) with 0%Q in *.
    change (inject_Z 2) with 2%Q in Qhi.
    destruct (critical_device d); case_thresholds; try reflexivity; exfalso; lra.
  - intros H.
    assert (inject_Z (Z.of_nat (length S)) <= 1)%Q as H1.
    { change 1%Q with (inject_Z 1). rewrite <- Zle_Qle. lia. }
    change (inject_Z 2) with 2%Q in Qhi.
    destruct (critical_device d); case_thresholds; simpl; try lia; exfalso; lra.
  - intros H.
    destruct (le_lt_dec 4 (length S)) as [Hl | Hl]; [exact Hl | exfalso].
    assert (inject_Z (Z.of_nat (length S)) <= 3)%Q as H3.
    { change 3%Q with (inject_Z 3). rewrite <- Zle_Qle. lia. }
    change (inject_Z 2) with 2%Q in Qhi.
    destruct (critical_device d); revert H; case_thresholds;
      try discriminate; intros _; lra.
  - intros H.
    assert (4 <= inject_Z (Z.of_nat (length S)))%Q as H4.
    { change 4%Q with (inject_Z 4). rewrite <- Zle_Qle. lia. }
    destruct (critical_device d); case_thresholds; simpl; try lia; exfalso; lra.
  - intros H.
    assert (10 <= inject_Z (Z.of_nat (length S)))%Q as H10.
    { change 10%Q with (inject_Z 10). rewrite <- Zle_Qle. lia. }
    destruct (critical_device d); case_thresholds; try reflexivity; exfalso; lra.
Qed.

Lemma severity_by_symptom_count_witness :
  (severity_value (_assess_severity ["Low battery voltage: 3.1V"]
                     {| dd_device_id := Some "ESP32-CRITICAL-001"; dd_metrics := ∅ |})
   < severity_value HIGH)%Z.
Proof.
  apply (proj1 (proj2 (severity_by_symptom_count ["Low battery voltage: 3.1V"]
                         {| dd_device_id := Some "ESP32-CRITICAL-001"; dd_metrics := ∅ |}))).
  simpl. lia.
Defined.

(** ** Symptom detection *)









(** X8: a battery_voltage, temperature or other metric that is NaN crosses
    no threshold; a NaN temperature alone is reported once, as an invalid
    reading, not as an extreme temperature. *)
Theorem nan_crosses_no_threshold (str : number -> string) (d : DeviceData) :
  (forall c, num_lt NaN c = false /\ num_gt NaN c = false)
  /\ (dd_metrics d !! "temperature" = Some NaN ->
      num_lt (get_metric d "battery_voltage" (Int 0)) 3.2 = false ->
      num_gt (get_metric d "memory_usage" (Int 0)) 90 = false ->
      num_gt (get_metric d "cpu_usage" (Int 0)) 95 = false ->
      num_gt (get_metric d "error_count" (Int 0)) 10 = false ->
      num_lt (get_metric d "wifi_signal_strength" (Int 0)) (-80) = false ->
      num_lt (get_metric d "uptime_hours" (Int 0)) 0.1 = false ->
      invalid_reading (get_reading d "humidity") = inr false ->
      invalid_reading (get_reading d "pressure") = inr false ->
      _detect_symptoms str d = inr ["Invalid temperature reading: " +:+ str NaN]).
Proof.
  split; [intros c; split; reflexivity |].
  intros Ht Hb Hm Hc He Hw Hu Hh Hp.
  rewrite detect_symptoms_eq, Hb, Hm, Hc, He, Hw, Hu.
  unfold get_metric, get_reading in *. rewrite Ht. simpl.
  rewrite Hh, Hp. reflexivity.
Qed.

Lemma nan_crosses_no_threshold_witness :
  _detect_symptoms show_number nan_temperature_snapshot
  = inr ["Invalid temperature reading: nan"].
Proof.
  apply (proj2 (nan_crosses_no_threshold show_number nan_temperature_snapshot));
    reflexivity.
Defined.

(** ** Action handlers and alerts *)

Lemma send_urgent_alert_returns {W} (X : External W) (message dev : string) :
  returns (_send_urgent_alert X message dev).
Proof. apply try_except_returns. intros e. apply mret_returns. Qed.

(** X9: an urgent alert never raises, and when its first channel (Slack)
    raises nothing more is sent: no SMS and no e-mail.  The
    manual-intervention handler reports success whatever happened to the
    alert; it, the sensor recalibration, the network reset and the factory
    reset can never report a failure. *)
Theorem alert_failures_are_silent {W} (X : External W) :
  (forall message dev, returns (_send_urgent_alert X message dev))
  /\ (forall post message dev e w w',
        slack_chat_postMessage X = Some post ->
        post "#critical-alerts" message w = (inl e, w') ->
        _send_urgent_alert X message dev w = (inr tt, w'))
  /\ (forall dev st w,
        exists w', _request_manual_intervention X dev st w
                   = (inr (ok_result "Manual intervention requested"), w'))
  /\ (forall a dev st w w' res,
        recovery_actions X a dev st w = (inr res, w') ->
        res_success res = false ->
        a ∈ [RESTART_SERVICE; REBOOT_DEVICE; UPDATE_FIRMWARE; SCALE_RESOURCES;
             REPLACE_HARDWARE]).
Proof.
  assert (forall dev st w,
            exists w', _request_manual_intervention X dev st w
                       = (inr (ok_result "Manual intervention requested"), w')) as Hmanual.
  { intros dev st w.
    unfold _request_manual_intervention, try_except, mbind, M_bind, datetime_now.
    destruct (send_urgent_alert_returns X (alert_message X dev (now X w)) dev w)
      as ([] & w' & ->).
    unfold mret, M_ret. eauto. }
  split; [| split; [| split]].
  - intros message dev. apply send_urgent_alert_returns.
  - intros post message dev e w w' Hs Hp.
    unfold _send_urgent_alert, try_except, mbind, M_bind.
    rewrite Hs, Hp. reflexivity.
  - exact Hmanual.
  - intros a dev st w w' res H Hf.
    destruct a; try (apply list_elem_of_In; simpl; tauto);
      exfalso; cbn [recovery_actions] in H.
    + inversion H; subst. discriminate.
    + inversion H; subst. discriminate.
    + inversion H; subst. discriminate.
    + destruct (Hmanual dev st w) as (w1 & E). rewrite E in H.
      inversion H; subst. discriminate.
Qed.

Lemma alert_failures_are_silent_witness :
  RESTART_SERVICE ∈ [RESTART_SERVICE; REBOOT_DEVICE; UPDATE_FIRMWARE; SCALE_RESOURCES;
                     REPLACE_HARDWARE].
Proof.
  apply (proj2 (proj2 (proj2 (alert_failures_are_silent (scripted broken_script))))
           RESTART_SERVICE "ESP32-001" diagnostic_step []
           ["read_namespaced_deployment"]
           (failed_result "Service restart failed" "connection refused"));
    reflexivity.
Defined.

(** ** Recovery execution *)

(** The [try] statement when the dependency analysis returns: every step
    of the plan is run. *)
Lemma recovery_try_after_analysis {W} (X : External W) (inc : IncidentReport)
    (w w0 : W) (high : bool) :
  _analyze_dependency_impact X (device_id inc) w = (inr high, w0) ->
  exists l w',
    recovery_try X inc (init_locals, w) = (inr tt, (l, w'))
    /\ l_manual_intervention l = existsb is_manual (recovery_plan inc)
    /\ (length (recovery_plan inc) <= length (l_actions_taken l))%nat
    /\ (l_success l = false -> l_lessons_learned l <> []).
Proof.
  intros Ha.
  unfold recovery_try, try_except, recovery_body, mbind, M_bind, call, modify, when,
    mret, M_ret.
  rewrite Ha.
  destruct high; cbn;
    match goal with
    | |- context [run_plan X ?d ?p (?l0, w0)] =>
        destruct (run_plan_spec X d p l0 w0)
          as (l1 & w1 & E & _ & _ & added & Ha1 & Hl1);
        destruct (run_plan_flags X d p l0 w0)
          as (l1' & w1' & E' & Hm & lessons & Hls);
        rewrite E in E'; inversion E'; subst l1' w1'; rewrite E
    end; cbn in Ha1, Hm, Hls;
    (destruct (_verify_full_recovery X (device_id inc) w1) as [[e | []] w2]; cbn;
     eexists _, _; (split; [reflexivity |]); cbn;
     (split; [exact Hm |]);
     (split; [rewrite Ha1, ?length_app; simpl; lia |]);
     first [discriminate | intros _; rewrite ?Hls; intros Hnil;
            apply app_eq_nil in Hnil as [_ Hnil]; discriminate
           | intros _; intros Hnil; apply app_eq_nil in Hnil as [_ Hnil]; discriminate]).
Qed.

(** The [try] statement when the dependency analysis raises: no step of
    the plan is run. *)
Lemma recovery_try_analysis_raises {W} (X : External W) (inc : IncidentReport)
    (w w0 : W) (e : exn) :
  _analyze_dependency_impact X (device_id inc) w = (inl e, w0) ->
  recovery_try X inc (init_locals, w)
  = (inr tt,
     ({| l_actions_taken := ["Critical error during recovery: " +:+ e];
         l_success := false;
         l_manual_intervention := false;
         l_lessons_learned := ["Recovery process exception: " +:+ e] |}, w0)).
Proof.
  intros Ha.
  unfold recovery_try, try_except, recovery_body, mbind, M_bind, call, modify.
  rewrite Ha. reflexivity.
Qed.

(** X10: when the dependency analysis returns, every step of the plan is
    attempted, a failure or an exception in one step not stopping the
    later ones, and manual intervention is flagged exactly when the plan
    holds a manual-intervention step. *)
Theorem recovery_attempts_every_step {W} (X : External W) (inc : IncidentReport)
    (w w0 w' : W) (high : bool) (r : RecoveryResult) :
  _analyze_dependency_impact X (device_id inc) w = (inr high, w0) ->
  execute_recovery X inc w = (inr r, w') ->
  (length (recovery_plan inc) <= length (actions_taken r))%nat
  /\ manual_intervention r = existsb is_manual (recovery_plan inc).
Proof.
  intros Ha H.
  destruct (execute_recovery_inv X inc w w' r H) as (l & w1 & Ht & _ & Ea & Em & _).
  destruct (recovery_try_after_analysis X inc w w0 high Ha)
    as (l' & w1' & Ht' & Hm & Hl & _).
  rewrite Ht in Ht'. inversion Ht'; subst l' w1'.
  rewrite Ea, Em. split; assumption.
Qed.

Lemma recovery_attempts_every_step_witness :
  exists r,
    (length (recovery_plan (incident_of "ESP32-001" "Battery cell is degraded" CRITICAL))
     <= length (actions_taken r))%nat
    /\ manual_intervention r
       = existsb is_manual
           (recovery_plan (incident_of "ESP32-001" "Battery cell is degraded" CRITICAL)).
Proof.
  eexists.
  eapply (recovery_attempts_every_step (scripted broken_script)
            (incident_of "ESP32-001" "Battery cell is degraded" CRITICAL) []).
  - vm_compute. reflexivity.
  - vm_compute. reflexivity.
Defined.

(** X11: when the dependency analysis raises, no step of the plan is run,
    the manual-intervention step of a critical incident included: the
    result holds the critical error as its only action and lesson, with
    [success] and [manual_intervention] false. *)
Theorem analysis_failure_skips_plan {W} (X : External W) (inc : IncidentReport)
    (w w0 w' : W) (e : exn) (r : RecoveryResult) :
  _analyze_dependency_impact X (device_id inc) w = (inl e, w0) ->
  execute_recovery X inc w = (inr r, w') ->
  actions_taken r = ["Critical error during recovery: " +:+ e]
  /\ lessons_learned r = ["Recovery process exception: " +:+ e]
  /\ success r = false
  /\ manual_intervention r = false.
Proof.
  intros Ha H.
  destruct (execute_recovery_inv X inc w w' r H) as (l & w1 & Ht & Es & Ea & Em & El).
  rewrite (recovery_try_analysis_raises X inc w w0 e Ha) in Ht.
  inversion Ht; subst l w1.
  rewrite Ea, El, Es, Em. repeat split.
Qed.

(** X12: a recovery that does not report success always leaves at least
    one lesson. *)
Theorem failed_recovery_leaves_lesson {W} (X : External W) (inc : IncidentReport)
    (w w' : W) (r : RecoveryResult) :
  execute_recovery X inc w = (inr r, w') ->
  success r = false ->
  lessons_learned r <> [].
Proof.
  intros H Hs.
  destruct (execute_recovery_inv X inc w w' r H) as (l & w1 & Ht & Es & _ & _ & El).
  rewrite El. rewrite Es in Hs.
  destruct (_analyze_dependency_impact X (device_id inc) w) as [[e | high] w0] eqn:Ha.
  - rewrite (recovery_try_analysis_raises X inc w w0 e Ha) in Ht.
    inversion Ht; subst l w1. discriminate.
  - destruct (recovery_try_after_analysis X inc w w0 high Ha)
      as (l' & w1' & Ht' & _ & _ & Hl).
    rewrite Ht in Ht'. inversion Ht'; subst l' w1'. now apply Hl.
Qed.

Lemma failed_recovery_leaves_lesson_witness :
  exists r, lessons_learned r <> [].
Proof.
  eexists.
  eapply (failed_recovery_leaves_lesson (scripted unrecovered_script)
            (incident_of "ESP32-001" fallback_root_cause HIGH) []).
  - vm_compute. reflexivity.
  - reflexivity.
Defined.

Lemma analysis_failure_skips_plan_witness :
  exists r,
    actions_taken r = ["Critical error during recovery: " +:+ "graph unavailable"]
    /\ lessons_learned r = ["Recovery process exception: " +:+ "graph unavailable"]
    /\ success r = false
    /\ manual_intervention r = false.
Proof.
  eexists.
  eapply (analysis_failure_skips_plan
            (without_dependency_analysis (scripted healthy_script) "graph unavailable")
            (incident_of "ESP32-001" "Battery cell is degraded" CRITICAL) []).
  - reflexivity.
  - vm_compute. reflexivity.
Defined.

(** ** Detection followed by recovery *)

Lemma plan_has_manual_step (root_cause : string) (sev : IncidentSeverity) :
  existsb is_manual (_generate_recovery_plan root_cause sev)
  = (severity_value CRITICAL <=? severity_value sev)%Z.
Proof.
  assert (existsb is_manual (targeted_steps root_cause) = false) as Ht.
  { pose proof (targeted_steps_not_manual root_cause) as H.
    induction H as [|st l Hst _ IH]; [reflexivity |]. simpl. now rewrite Hst, IH. }
  destruct (Z.leb_spec (severity_value CRITICAL) (severity_value sev)) as [H | H].
  - rewrite (plan_from_critical _ _ H), existsb_app. cbn [existsb app].
    change (is_manual diagnostic_step) with false. rewrite Ht. reflexivity.
  - rewrite (plan_below_critical _ _ H). cbn [existsb].
    change (is_manual diagnostic_step) with false. now rewrite Ht.
Qed.

(** Every report that [detect_incident] returns is built from the
    snapshot: its severity is the one assessed for its symptoms and its
    plan the one generated for its root cause and severity. *)
Lemma detect_incident_fields {W} (X : External W) (d : DeviceData) (w : W) :
  match detect_incident X d w with
  | (inr (Some inc), _) =>
      _detect_symptoms (str_of_number X) d = inr (symptoms inc)
      /\ symptoms inc <> []
      /\ dd_device_id d = Some (device_id inc)
      /\ device_id inc <> EmptyString
      /\ severity inc = _assess_severity (symptoms inc) d
      /\ exists rc, root_cause inc = Some rc
                    /\ recovery_plan inc = _generate_recovery_plan rc (severity inc)
  | _ => True
  end.
Proof.
  unfold detect_incident.
  destruct (falsy_device_id d) eqn:Hid; [exact I |].
  assert (dd_device_id d = Some (default EmptyString (dd_device_id d))
          /\ default EmptyString (dd_device_id d) <> EmptyString) as (Hdev & Hne).
  { unfold falsy_device_id in Hid.
    destruct (dd_device_id d) as [s |]; [| discriminate]. split; [reflexivity |].
    simpl. intros ->. discriminate. }
  unfold mbind, M_bind, lift_result, datetime_now, when, mret, M_ret.
  destruct (_detect_symptoms (str_of_number X) d) as [e | [|s l]] eqn:E;
    [exact I | exact I |].
  run_calls; try exact I.
  all: destruct (_ <=? _)%Z; run_calls; try exact I; cbn;
    repeat split; eauto; discriminate.
Qed.

(** X13: a report returned by detection is consistent with the snapshot:
    it has the snapshot's device id, not empty, the detected symptoms, at
    least one, the severity assessed for them, a root cause, and the plan
    generated for that cause and severity. *)
Theorem detected_incident_is_consistent {W} (X : External W) (d : DeviceData)
    (w w' : W) (inc : IncidentReport) :
  detect_incident X d w = (inr (Some inc), w') ->
  _detect_symptoms (str_of_number X) d = inr (symptoms inc)
  /\ symptoms inc <> []
  /\ dd_device_id d = Some (device_id inc)
  /\ device_id inc <> EmptyString
  /\ severity inc = _assess_severity (symptoms inc) d
  /\ exists rc, root_cause inc = Some rc
                /\ recovery_plan inc = _generate_recovery_plan rc (severity inc).
Proof.
  intros H. pose proof (detect_incident_fields X d w) as G.
  now rewrite H in G.
Qed.

(** X14: detection followed by recovery: when the dependency analysis
    returns, the recovery of a detected incident requests manual
    intervention exactly when the incident is CRITICAL or CATASTROPHIC, and
    it always attempts at least the diagnostic step. *)
Theorem detected_recovery_escalates_iff_critical {W} (X : External W) (d : DeviceData)
    (w w1 w2 w3 : W) (inc : IncidentReport) (high : bool) (r : RecoveryResult) :
  detect_incident X d w = (inr (Some inc), w1) ->
  _analyze_dependency_impact X (device_id inc) w1 = (inr high, w2) ->
  execute_recovery X inc w1 = (inr r, w3) ->
  manual_intervention r = (severity_value CRITICAL <=? severity_value (severity inc))%Z
  /\ (1 <= length (actions_taken r))%nat.
Proof.
  intros Hd Ha He.
  pose proof (detect_incident_fields X d w) as G. rewrite Hd in G.
  destruct G as (_ & _ & _ & _ & _ & rc & _ & Hplan).
  destruct (execute_recovery_inv X inc w1 w3 r He) as (l & w4 & Ht & _ & Ea & Em & _).
  destruct (recovery_try_after_analysis X inc w1 w2 high Ha)
    as (l' & w4' & Ht' & Hm & Hl & _).
  rewrite Ht in Ht'. inversion Ht'; subst l' w4'.
  rewrite Em, Ea, Hm. rewrite Hplan in *. split.
  - apply plan_has_manual_step.
  - assert (1 <= length (_generate_recovery_plan rc (severity inc)))%nat; [| lia].
    unfold _generate_recovery_plan. cbv zeta.
    destruct (_ <=? _)%Z; rewrite ?length_app; simpl; lia.
Qed.

Lemma detected_incident_is_consistent_witness :
  exists inc,
    _detect_symptoms show_number low_battery_snapshot = inr (symptoms inc)
    /\ symptoms inc <> []
    /\ dd_device_id low_battery_snapshot = Some (device_id inc)
    /\ device_id inc <> EmptyString
    /\ severity inc = _assess_severity (symptoms inc) low_battery_snapshot
    /\ exists rc, root_cause inc = Some rc
                  /\ recovery_plan inc = _generate_recovery_plan rc (severity inc).
Proof.
  eexists.
  eapply (detected_incident_is_consistent (scripted healthy_script)
            low_battery_snapshot []).
  vm_compute. reflexivity.
Defined.

Lemma detected_recovery_escalates_iff_critical_witness :
  exists inc r,
    manual_intervention r = (severity_value CRITICAL <=? severity_value (severity inc))%Z
    /\ (1 <= length (actions_taken r))%nat.
Proof.
  eexists _, _.
  eapply (detected_recovery_escalates_iff_critical (scripted healthy_script)
            {| dd_device_id := Some "ESP32-001"; dd_metrics := ∅ |} []).
  - vm_compute. reflexivity.
  - vm_compute. reflexivity.
  - vm_compute. reflexivity.
Defined.

(** ** Device monitoring *)

Lemma monitor_devices_stops {W} (X : External W) (F : Feed W)
    (done : list string) (key : string) (rest : list string) (e : exn) (w w1 w2 : W) :
  monitor_devices X F done w = (inr tt, w1) ->
  monitor_device X F key w1 = (inl e, w2) ->
  monitor_devices X F (done ++ key :: rest) w = (inl e, w2).
Proof.
  revert w. induction done as [|k done IH]; intros w Hd Hk.
  - inversion Hd; subst. cbn [app monitor_devices]. unfold mbind, M_bind.
    now rewrite Hk.
  - cbn [app monitor_devices] in *. unfold mbind, M_bind in *.
    destruct (monitor_device X F k w) as [[e' | []] w'] eqn:Ek; [discriminate |].
    now apply IH.
Qed.

(** X15: one turn of the monitoring loop never raises as long as
    [asyncio.sleep] returns, whatever Redis, the JSON decoding, the
    detection and the recovery do; so the loop runs any number of turns. *)
Theorem monitoring_survives_failures {W} (X : External W) (F : Feed W) :
  (forall n, returns (sleep X n)) ->
  returns (monitor_round X F)
  /\ forall rounds, returns (_monitor_device_health X F rounds).
Proof.
  intros Hsleep.
  assert (returns (monitor_round X F)) as Hround.
  { intros w. unfold monitor_round, try_except, mbind, M_bind.
    destruct (redis_keys F "device:*:latest" w) as [[e | keys] w1];
      [apply Hsleep |].
    destruct (monitor_devices X F keys w1) as [[e | []] w2]; [apply Hsleep |].
    destruct (Hsleep 30%Z w2) as ([] & w3 & E). rewrite E. eauto. }
  split; [exact Hround |].
  induction rounds as [|n IH]; intros w.
  - unfold _monitor_device_health, mret, M_ret. eauto.
  - cbn [_monitor_device_health]. unfold mbind, M_bind.
    destruct (Hround w) as ([] & w1 & ->). apply IH.
Qed.

Lemma monitoring_survives_failures_witness :
  returns (monitor_round (scripted broken_script)
             (scripted_feed [("device:a:latest", low_battery_snapshot)])).
Proof.
  apply (proj1 (monitoring_survives_failures (scripted broken_script)
                  (scripted_feed [("device:a:latest", low_battery_snapshot)])
                  (fun n w => ex_intro _ tt (ex_intro _ (w ++ ["sleep"]) eq_refl)))).
Defined.

(** X16: when the handling of one device raises, the devices after it in
    the key list are not looked at in that turn: the turn goes straight to
    the 60 second pause of the [except] clause. *)
Theorem failing_device_ends_the_round {W} (X : External W) (F : Feed W)
    (done : list string) (key : string) (rest : list string) (e : exn)
    (w w0 w1 w2 : W) :
  redis_keys F "device:*:latest" w = (inr (done ++ key :: rest), w0) ->
  monitor_devices X F done w0 = (inr tt, w1) ->
  monitor_device X F key w1 = (inl e, w2) ->
  monitor_round X F w = sleep X 60 w2.
Proof.
  intros Hk Hd He.
  unfold monitor_round, try_except, mbind, M_bind.
  rewrite Hk, (monitor_devices_stops X F done key rest e w0 w1 w2 Hd He).
  reflexivity.
Qed.

Lemma failing_device_ends_the_round_witness :
  monitor_round (scripted healthy_script)
    {| redis_keys := fun pattern =>
         logged "redis.keys" (inr ["device:a:latest"; "device:b:latest"]);
       redis_get := fun key => logged "redis.get" (inr key);
       json_loads := fun raw => inl "Expecting value" |} []
  = (inr tt, ["redis.keys"; "redis.get"; "sleep"]).
Proof.
  apply (failing_device_ends_the_round (scripted healthy_script) _
           [] "device:a:latest" ["device:b:latest"] "Expecting value"
           [] ["redis.keys"] ["redis.keys"] ["redis.keys"; "redis.get"]);
    reflexivity.
Defined.

(** X17: automatic recovery runs only from severity HIGH: for a device
    whose snapshot shows at most one symptom, on any device id, the
    monitor detects and records the incident and makes no call beyond
    those of the detection. *)
Theorem single_symptom_is_not_recovered {W} (X : External W) (F : Feed W)
    (key raw : string) (d : DeviceData) (w w1 : W) :
  redis_get F key w = (inr raw, w1) ->
  json_loads F raw = inr d ->
  (forall l, _detect_symptoms (str_of_number X) d = inr l -> (length l <= 1)%nat) ->
  monitor_device X F key w
  = (match (detect_incident X d w1).1 with
     | inl e => inl e
     | inr _ => inr tt
     end, (detect_incident X d w1).2).
Proof.
  intros Hg Hj Hl.
  unfold monitor_device, mbind, M_bind, lift_result. rewrite Hg, Hj.
  pose proof (detect_incident_fields X d w1) as G.
  destruct (detect_incident X d w1) as [[e | [inc |]] w2]; cbn [fst snd];
    try reflexivity.
  destruct G as (Hs & _ & _ & _ & Hsev & _).
  unfold recover_if_severe.
  assert (severity_value (severity inc) < severity_value HIGH)%Z as Hlt.
  { rewrite Hsev. specialize (Hl _ Hs).
    pose proof (score_symptoms_bounds (symptoms inc)) as [_ Hhi].
    assert (inject_Z (score_symptoms (symptoms inc)) <= 2)%Q as Q2.
    { change 2%Q with (inject_Z 2). rewrite <- Zle_Qle. lia. }
    unfold _assess_severity, severity_of_score.
    destruct (critical_device d); case_thresholds; simpl; try lia; exfalso; lra. }
  destruct (Z.leb_spec (severity_value HIGH) (severity_value (severity inc))); [lia |].
  reflexivity.
Qed.

Lemma single_symptom_is_not_recovered_witness :
  monitor_device (scripted healthy_script)
    (scripted_feed [("device:a:latest", low_battery_snapshot)]) "device:a:latest" []
  = (inr tt,
     ["redis.get"; "chat.completions.create"; "_assess_business_impact";
      "_identify_stakeholders"; "_classify_incident_type";
      "_estimate_recovery_time"; "_record_incident"]).
Proof.
  apply (single_symptom_is_not_recovered (scripted healthy_script)
           (scripted_feed [("device:a:latest", low_battery_snapshot)])
           "device:a:latest" "device:a:latest" low_battery_snapshot [] ["redis.get"]).
  - reflexivity.
  - reflexivity.
  - intros l [= <-]. vm_compute. lia.
Defined.

(** ** Health report *)

Lemma rate_bounds (r t : nat) :
  (r <= t)%nat -> (0 < t)%nat ->
  (0 <= inject_Z (Z.of_nat r) / inject_Z (Z.of_nat t) * 100 <= 100)%Q.
Proof.
  intros Hrt Ht.
  assert (0 <= inject_Z (Z.of_nat r))%Q as Ha.
  { change 0%Q with (inject_Z 0). rewrite <- Zle_Qle. lia. }
  assert (inject_Z (Z.of_nat r) <= inject_Z (Z.of_nat t))%Q as Hab.
  { rewrite <- Zle_Qle. lia. }
  assert (0 < inject_Z (Z.of_nat t))%Q as Hb.
  { change 0%Q with (inject_Z 0). rewrite <- Zlt_Qlt. lia. }
  assert (0 <= inject_Z (Z.of_nat r) / inject_Z (Z.of_nat t))%Q as H0.
  { apply Qle_shift_div_l; [exact Hb | lra]. }
  assert (inject_Z (Z.of_nat r) / inject_Z (Z.of_nat t) <= 1)%Q as H1.
  { apply Qle_shift_div_r; [exact Hb | lra]. }
  set (x := (inject_Z (Z.of_nat r) / inject_Z (Z.of_nat t))%Q) in *.
  split; lra.
Qed.

Lemma resolution_minutes_length (incidents : list RecoveryIncident) :
  length (resolution_minutes incidents) = length (List.filter resolved incidents).
Proof.
  induction incidents as [|i l IH]; [reflexivity |].
  unfold resolution_minutes, resolved in *. cbn [omap list_omap List.filter].
  destruct (ri_resolution_time i); cbn; [now rewrite IH | exact IH].
Qed.

Lemma report_statistics_bounds (incidents : list RecoveryIncident) :
  let st := report_statistics incidents in
  total_incidents st = length incidents
  /\ (resolved_incidents st <= total_incidents st)%nat
  /\ (0 <= resolution_rate st <= 100)%Q
  /\ avg_resolution_time_minutes st <> NaN
  /\ (incidents = [] ->
      resolution_rate st = 100%Q
      /\ avg_resolution_time_minutes st = Int 0
      /\ success_rate st = Int 100).
Proof.
  cbv zeta. unfold report_statistics.
  cbn [total_incidents resolved_incidents resolution_rate
       avg_resolution_time_minutes success_rate].
  pose proof (filter_length_le resolved incidents) as Hle.
  split; [reflexivity |]. split; [exact Hle |]. split; [| split].
  - destruct (Nat.ltb_spec 0 (length incidents)) as [Hlt | Hlt].
    + now apply rate_bounds.
    + split; lra.
  - destruct (Nat.ltb_spec 0 (length (List.filter resolved incidents))) as [Hlt | Hlt];
      [| discriminate].
    rewrite <- resolution_minutes_length in Hlt.
    destruct (resolution_minutes incidents); [simpl in Hlt; lia | discriminate].
  - intros ->. repeat split.
Qed.

(** What a returned report is made of. *)
Lemma generate_health_report_inv {W} (X : External W) (R : Reporting W)
    (dev : string) (w w' : W) (rep : HealthReport) :
  generate_health_report X R dev w = (inr rep, w') ->
  exists time rows,
    report_device_id rep = dev
    /\ statistics rep = report_statistics (recent_incidents dev time rows)
    /\ incident_history rep
       = history_entry X <$> last_ten (recent_incidents dev time rows).
Proof.
  unfold generate_health_report, try_finally, mbind, M_bind, datetime_now, mret, M_ret.
  intros H.
  destruct (Session R w) as [[e | []] w0]; [discriminate |].
  destruct (session_query R w0) as [[e | rows] w1].
  { destruct (session_close R w1) as [[? | ?] ?]; discriminate. }
  exists (now X w0), rows.
  repeat match type of H with
    | context [match ?f ?w with _ => _ end] =>
        lazymatch type of (f w) with
        | ((exn + _) * _)%type => destruct (f w) as [[?e|?a] ?w]
        end
    end; inversion H; subst; repeat split.
Qed.

(** X18: in every health report the number of resolved incidents is at
    most the total, the resolution rate lies between 0 and 100, the average
    resolution time is a number, never NaN, and the history holds the last
    ten incidents at most; for a device without incidents the rates are
    100 and the average is 0. *)
Theorem health_report_statistics {W} (X : External W) (R : Reporting W)
    (dev : string) (w w' : W) (rep : HealthReport) :
  generate_health_report X R dev w = (inr rep, w') ->
  (resolved_incidents (statistics rep) <= total_incidents (statistics rep))%nat
  /\ (0 <= resolution_rate (statistics rep) <= 100)%Q
  /\ avg_resolution_time_minutes (statistics rep) <> NaN
  /\ length (incident_history rep)
     = Nat.min 10 (total_incidents (statistics rep))
  /\ (total_incidents (statistics rep) = 0%nat ->
      resolution_rate (statistics rep) = 100%Q
      /\ avg_resolution_time_minutes (statistics rep) = Int 0
      /\ success_rate (statistics rep) = Int 100
      /\ incident_history rep = []).
Proof.
  intros H.
  destruct (generate_health_report_inv X R dev w w' rep H)
    as (time & rows & _ & Hst & Hh).
  pose proof (report_statistics_bounds (recent_incidents dev time rows))
    as (Ht & Hr & Hq & Ha & H0).
  cbv zeta in *. rewrite Hst, Hh.
  split; [exact Hr |]. split; [exact Hq |]. split; [exact Ha |]. split.
  - rewrite Ht, length_fmap. unfold last_ten. rewrite length_drop. lia.
  - rewrite Ht. intros Hl. apply length_zero_iff_nil in Hl.
    destruct (H0 Hl) as (E1 & E2 & E3). rewrite Hl in *.
    repeat split; assumption.
Qed.

(** X19: the reported success rate is the mean of the rates that are
    neither NULL nor zero: an incident with a rate of zero or none does
    not change it when other incidents are present, and it is NaN when the
    device has incidents but none with a rate above zero. *)
Theorem success_rate_ignores_zero (i : RecoveryIncident) (l : list RecoveryIncident) :
  truthy_rate (ri_success_rate i) = false ->
  (l <> [] -> success_rate (report_statistics (i :: l))
              = success_rate (report_statistics l))
  /\ ((forall j, j ∈ l -> truthy_rate (ri_success_rate j) = false) ->
      success_rate (report_statistics (i :: l)) = NaN).
Proof.
  intros Hi. unfold report_statistics. cbn [success_rate].
  assert (truthy_rates (i :: l) = truthy_rates l) as E.
  { unfold truthy_rates. cbn [omap list_omap]. now rewrite Hi. }
  rewrite E. split.
  - intros Hl. destruct l; [contradiction | reflexivity].
  - intros Hall.
    assert (truthy_rates l = []) as ->; [| reflexivity].
    clear E. induction l as [|j l IH]; [reflexivity |].
    unfold truthy_rates in *. cbn [omap list_omap].
    rewrite (Hall j) by (apply elem_of_cons; now left).
    apply IH. intros k Hk. apply Hall. apply elem_of_cons. now right.
Qed.

Lemma success_rate_ignores_zero_witness :
  success_rate
    (report_statistics
       [incident_row "ESP32-001" 0 (Some 60%Q) (Some 0%Q);
        incident_row "ESP32-001" 100 None None]) = NaN.
Proof.
  apply (proj2 (success_rate_ignores_zero
                  (incident_row "ESP32-001" 0 (Some 60%Q) (Some 0%Q))
                  [incident_row "ESP32-001" 100 None None] eq_refl)).
  intros j Hj. apply list_elem_of_singleton in Hj. subst j. reflexivity.
Defined.

Lemma health_report_statistics_witness :
  exists rep,
    (resolved_incidents (statistics rep) <= total_incidents (statistics rep))%nat
    /\ (0 <= resolution_rate (statistics rep) <= 100)%Q
    /\ avg_resolution_time_minutes (statistics rep) <> NaN
    /\ length (incident_history rep)
       = Nat.min 10 (total_incidents (statistics rep))
    /\ (total_incidents (statistics rep) = 0%nat ->
        resolution_rate (statistics rep) = 100%Q
        /\ avg_resolution_time_minutes (statistics rep) = Int 0
        /\ success_rate (statistics rep) = Int 100
        /\ incident_history rep = []).
Proof.
  eexists.
  eapply (health_report_statistics (scripted healthy_script)
            (scripted_reporting
               [incident_row "ESP32-001" 0 (Some 600%Q) (Some 0.8%Q);
                incident_row "ESP32-002" 0 None None;
                incident_row "ESP32-001" 1 None (Some 0%Q)] true)
            "ESP32-001" []).
  vm_compute. reflexivity.
Defined.

(** X20: the health report closes its database session on every path,
    and, unlike the recovery, it does not catch the exceptions of its
    helper methods: one that raises makes the report raise, after the
    session is closed. *)
Theorem health_report_closes_session {W} (X : External W) (R : Reporting W)
    (dev : string) (w w0 : W) :
  Session R w = (inr tt, w0) ->
  returns (session_close R) ->
  (exists w1, session_close R w1 = (inr tt, (generate_health_report X R dev w).2))
  /\ (forall rows w1 score w2 e w3,
        session_query R w0 = (inr rows, w1) ->
        _calculate_device_health_score R (recent_incidents dev (now X w0) rows) w1
        = (inr score, w2) ->
        _predict_future_failures R dev (recent_incidents dev (now X w0) rows) w2
        = (inl e, w3) ->
        (generate_health_report X R dev w).1 = inl e).
Proof.
  intros Hs Hc. split.
  - unfold generate_health_report, try_finally. unfold mbind at 1. unfold M_bind at 1.
    rewrite Hs.
    match goal with
    | |- context [match ?m w0 with _ => _ end] => destruct (m w0) as [r s']
    end.
    destruct (Hc s') as ([] & s'' & E). rewrite E. exists s'. exact E.
  - intros rows w1 score w2 e w3 Hq Hh Hp.
    unfold generate_health_report, try_finally, mbind, M_bind, datetime_now.
    rewrite Hs, Hq, Hh, Hp.
    destruct (Hc w3) as ([] & w4 & ->). reflexivity.
Qed.

Lemma health_report_closes_session_witness :
  (generate_health_report (scripted healthy_script)
     (scripted_reporting [incident_row "ESP32-001" 0 None None] false)
     "ESP32-001" []).1 = inl "model unavailable"
  /\ exists w1,
       session_close (scripted_reporting [incident_row "ESP32-001" 0 None None] false) w1
       = (inr tt,
          (generate_health_report (scripted healthy_script)
             (scripted_reporting [incident_row "ESP32-001" 0 None None] false)
             "ESP32-001" []).2).
Proof.
  pose proof (health_report_closes_session (scripted healthy_script)
                (scripted_reporting [incident_row "ESP32-001" 0 None None] false)
                "ESP32-001" [] ["Session"] eq_refl
                (fun w => ex_intro _ tt (ex_intro _ (w ++ ["session.close"]) eq_refl)))
    as [Hclose Hraise].
  split; [| exact Hclose].
  eapply Hraise; reflexivity.
Defined.
